(** * Roadmap layout: a shallow embedding of [create_roadmap_from_excel.py]

    The Python script reads six sheets of an Excel workbook and lays a
    roadmap out on one PowerPoint slide.  The embedding below follows
    [create_roadmap_from_data]: the sheets are lists of records, the slide is
    the list of shapes added to it, in the order in which they are added, and
    a Python exception is the left injection of a sum.  Lengths are English
    Metric Units (EMU), the integers python-pptx computes with
    ([Inches(x) = int(x * 914400)]); numeric cells are binary64 floats.

    A character of a string stands for a Unicode code point below 256; text
    with other code points is outside the model.  (The arrow and the dashes
    of the fixed captions are written as their UTF-8 bytes.) *)

From Stdlib Require Import ZArith List String Ascii Bool Lia Floats.
From Stdlib Require Import DecimalString DecimalPos DecimalZ.
Import ListNotations.

Set Warnings "-inexact-float".

Local Open Scope string_scope.
Local Open Scope list_scope.
Local Open Scope Z_scope.

(** ** Exceptions *)

Inductive exn : Set := ValueError | OverflowError | IndexError.

Definition result (A : Type) : Type := (exn + A)%type.

Definition ret {A} (a : A) : result A := inr a.
Definition raise {A} (e : exn) : result A := inl e.
Definition bind {A B} (m : result A) (k : A -> result B) : result B :=
  match m with
  | inl e => inl e
  | inr a => k a
  end.

Notation "x <- m ;; k" := (bind m (fun x => k))
  (at level 61, m at next level, right associativity).
Notation "' p <- m ;; k" := (bind m (fun x => let 'p := x in k))
  (at level 61, p pattern, m at next level, right associativity).

(** The value of a conversion applied to a literal, which cannot raise. *)
Definition lit (r : result Z) : Z :=
  match r with
  | inr z => z
  | inl _ => 0
  end.

(** ** Python and python-pptx built-ins *)

Module Py.

(** [int(f)]: truncation towards zero; [ValueError] on NaN, [OverflowError]
    on an infinity. *)
Definition int_of_float (f : float) : result Z :=
  match Prim2SF f with
  | S754_nan => raise ValueError
  | S754_infinity _ => raise OverflowError
  | S754_zero _ => ret 0
  | S754_finite s m e => ret (cond_Zopp s (Z.shiftl (Zpos m) e))
  end.

(** The conversion of an [int] operand of a float operation: correctly
    rounded, [OverflowError] when the integer is too large. *)
Definition float_of_int (z : Z) : result float :=
  let f := SF2Prim (binary_normalize prec emax z 0 false) in
  if is_infinity f then raise OverflowError else ret f.

(** [z / 2] on an [int]: the correctly rounded quotient. *)
Definition true_div2 (z : Z) : result float :=
  let f := SF2Prim (binary_normalize prec emax z (-1) false) in
  if is_infinity f then raise OverflowError else ret f.

(** [str(n)] and [int(s)] on decimal numerals. *)
Definition str_int (n : Z) : string := NilZero.string_of_int (Z.to_int n).

Definition int_str (s : string) : result Z :=
  match NilZero.int_of_string s with
  | Some d => ret (Z.of_int d)
  | None => raise ValueError
  end.

(** [s.lower()]: among the code points below 256 the capitals are A-Z and
    192-222 without the multiplication sign 215. *)
Definition lower_char (c : ascii) : ascii :=
  let n := nat_of_ascii c in
  if ((65 <=? n)%nat && (n <=? 90)%nat)
     || ((192 <=? n)%nat && (n <=? 222)%nat && negb (n =? 215)%nat)
  then ascii_of_nat (n + 32) else c.

Fixpoint lower (s : string) : string :=
  match s with
  | EmptyString => EmptyString
  | String c r => String (lower_char c) (lower r)
  end.

(** [s.split("-")[0]]: the text before the first dash. *)
Fixpoint split_dash_0 (s : string) : string :=
  match s with
  | EmptyString => EmptyString
  | String c r => if Ascii.eqb c "-" then EmptyString else String c (split_dash_0 r)
  end.

(** [s.lstrip('#')] *)
Fixpoint lstrip_hash (s : string) : string :=
  match s with
  | String c r => if Ascii.eqb c "#" then lstrip_hash r else s
  | EmptyString => EmptyString
  end.

(** The blanks [int] skips around a numeral: tab to carriage return, the
    space, and among the code points 128-255 the next-line control 133 and
    the no-break space 160. *)
Definition is_space (c : ascii) : bool :=
  let n := nat_of_ascii c in
  ((9 <=? n)%nat && (n <=? 13)%nat) || (n =? 32)%nat || (n =? 133)%nat
  || (n =? 160)%nat.

Fixpoint lstrip_space (s : string) : string :=
  match s with
  | String c r => if is_space c then lstrip_space r else s
  | EmptyString => EmptyString
  end.

Fixpoint all_space (s : string) : bool :=
  match s with
  | EmptyString => true
  | String c r => is_space c && all_space r
  end.

Definition hex_digit (c : ascii) : option Z :=
  let n := nat_of_ascii c in
  if (48 <=? n)%nat && (n <=? 57)%nat then Some (Z.of_nat (n - 48))
  else if (65 <=? n)%nat && (n <=? 70)%nat then Some (Z.of_nat (n - 55))
  else if (97 <=? n)%nat && (n <=? 102)%nat then Some (Z.of_nat (n - 87))
  else None.

(** The digits of a numeral, up to trailing blanks. *)
Fixpoint hex_digits (acc : Z) (s : string) : option Z :=
  match s with
  | EmptyString => Some acc
  | String c r =>
      match hex_digit c with
      | Some d => hex_digits (16 * acc + d) r
      | None => if all_space s then Some acc else None
      end
  end.

Definition hex_unsigned (s : string) : result Z :=
  match s with
  | String c _ =>
      match hex_digit c, hex_digits 0 s with
      | Some _, Some n => ret n
      | _, _ => raise ValueError
      end
  | EmptyString => raise ValueError
  end.

(** [int(s, 16)] on the slices [hex_to_rgb] takes, of at most two
    characters: blanks around, an optional sign, hexadecimal digits.  (A
    [0x] prefix or a [_] separator would need three characters.) *)
Definition int16 (s : string) : result Z :=
  match lstrip_space s with
  | String "+" r => hex_unsigned r
  | String "-" r => n <- hex_unsigned r ;; ret (- n)
  | s' => hex_unsigned s'
  end.

(** [Inches(x)] and [Pt(n)] of [pptx.util]: lengths in EMU. *)
Definition Inches (inches : float) : result Z :=
  int_of_float (inches * 914400)%float.

Definition Pt (points : Z) : Z := points * 12700.

End Py.

Export Py.

(** ** Colours and shapes *)

Record RGBColor : Set := RGB { red : Z; green : Z; blue : Z }.

(** [RGBColor(r, g, b)] checks that each value is within [0, 255]. *)
Definition RGBColor_new (r g b : Z) : result RGBColor :=
  if forallb (fun v => (0 <=? v) && (v <=? 255)) [r; g; b]
  then ret (RGB r g b)
  else raise ValueError.

Definition hex_to_rgb (hex_color : string) : result RGBColor :=
  let hex_color := lstrip_hash hex_color in
  r <- int16 (substring 0 2 hex_color) ;;
  g <- int16 (substring 2 2 hex_color) ;;
  b <- int16 (substring 4 2 hex_color) ;;
  RGBColor_new r g b.

(** A Python number: the top of a label is computed with a true division
    and is a float; every other coordinate is an [int]. *)
Inductive pynum : Set :=
| PyInt (z : Z)
| PyFloat (f : float).

Inductive PP_ALIGN : Set := LEFT | CENTER.

(** The shapes of the slide, each with the arguments it is created with. *)
Inductive Shape : Set :=
| Rectangle (left top width height : Z) (fill line : option RGBColor)
| TextBox (left : Z) (top : pynum) (width height : Z) (text : string)
    (font_size : Z) (bold italic : bool) (font_color fill : option RGBColor)
    (alignment : PP_ALIGN)
| Triangle (left top size : Z) (color : RGBColor).

(** The top of a text box is an [int], or a float that [textbox_top] has
    let through (see [label_top]). *)
Definition add_text_box (left : Z) (top : pynum) (width height : Z) (text : string)
    (font_size : Z) (bold : bool) (font_color fill_color : option RGBColor)
    (alignment : PP_ALIGN) (italic : bool) : Shape :=
  TextBox left top width height text font_size bold italic font_color fill_color
    alignment.

Definition add_rectangle (left top width height : Z)
    (fill_color line_color : option RGBColor) : Shape :=
  Rectangle left top width height fill_color line_color.

Definition add_triangle_milestone (left top size : Z) (color : RGBColor) : Shape :=
  Triangle left top size color.

(** ** The workbook *)

Record TimelineRow : Set := {
  tl_Year : string;
  tl_Width : float;
  tl_IsLastColumn : string
}.

Record GoalRow : Set := {
  g_GoalID : Z;
  g_GoalName : string
}.

Record RowsRow : Set := {
  r_RowID : Z;
  r_STCLabel : string;
  r_FTALabel : string;
  r_BackgroundColor : string;
  r_GoalID : Z;
  r_RowHeight : float
}.

Record MilestoneRow : Set := {
  m_RowID : Z;
  m_Year : Z;
  m_VerticalOffset : float;
  m_Text : string;
  m_IsCritical : string
}.

Record UseCaseRow : Set := {
  uc_UseCaseID : string;
  uc_Description : string;
  uc_Color : string
}.

Record Data : Set := {
  settings : list (string * string);
  timeline : list TimelineRow;
  goals : list GoalRow;
  rows : list RowsRow;
  milestones : list MilestoneRow;
  usecases : list UseCaseRow
}.

(** [settings.get(key, default)], the dictionary [data['settings']] being the
    list of its items. *)
Fixpoint settings_get (s : list (string * string)) (key default : string) : string :=
  match s with
  | [] => default
  | (k, v) :: s' => if String.eqb k key then v else settings_get s' key default
  end.

(** ** The dictionary of column positions

    A Python dictionary keeps its keys in insertion order; assigning to a key
    that is present replaces the value where the key stands. *)

Definition dict : Set := list (string * Z).

Fixpoint dict_set (k : string) (v : Z) (d : dict) : dict :=
  match d with
  | [] => [(k, v)]
  | (k', v') :: d' =>
      if String.eqb k' k then (k, v) :: d' else (k', v') :: dict_set k v d'
  end.

Fixpoint dict_get (k : string) (d : dict) : option Z :=
  match d with
  | [] => None
  | (k', v) :: d' => if String.eqb k' k then Some v else dict_get k d'
  end.

Definition dict_values (d : dict) : list Z := map snd d.

(** [l[-1]] *)
Definition list_last (l : list Z) : result Z :=
  match rev l with
  | [] => raise IndexError
  | v :: _ => ret v
  end.

(** ** Layout constants *)

Definition Inch (x : float) : Z := lit (Inches x).

Definition SLIDE_WIDTH : Z := Inch 13.333.
Definition SLIDE_HEIGHT : Z := Inch 7.5.

Definition header_top : Z := Inch 0.6.
Definition header_height : Z := Inch 0.3.
Definition left_margin : Z := Inch 1.4.
Definition stc_width : Z := Inch 0.4.
Definition fta_width : Z := Inch 1.0.

Definition white : RGBColor := RGB 255 255 255.
Definition dark_gray : RGBColor := RGB 0x33 0x33 0x33.
Definition light_gray : RGBColor := RGB 0xcc 0xcc 0xcc.

Record Colors : Set := {
  navy : RGBColor;
  pink : RGBColor;
  purple : RGBColor;
  yellow : RGBColor;
  milestone : RGBColor;
  critical : RGBColor;
  near_term : RGBColor;
  mid_term : RGBColor;
  far_term : RGBColor;
  tan_box : RGBColor
}.

Definition parse_colors (s : list (string * string)) : result Colors :=
  c_navy <- hex_to_rgb (settings_get s "Navy Color" "1A1A4E") ;;
  c_pink <- hex_to_rgb (settings_get s "Pink Background" "FFE0E0") ;;
  c_purple <- hex_to_rgb (settings_get s "Purple Background" "E0D8F0") ;;
  c_yellow <- hex_to_rgb (settings_get s "Yellow Background" "FFF0D0") ;;
  c_milestone <- hex_to_rgb (settings_get s "Milestone Color" "F0C040") ;;
  c_critical <- hex_to_rgb (settings_get s "Critical Text Color" "CC0000") ;;
  c_near <- hex_to_rgb (settings_get s "Near Term Color" "555555") ;;
  c_mid <- hex_to_rgb (settings_get s "Mid Term Color" "C8A080") ;;
  c_far <- hex_to_rgb (settings_get s "Far Term Color" "E8D8C8") ;;
  c_tan <- hex_to_rgb "C0A080" ;;
  ret {| navy := c_navy; pink := c_pink; purple := c_purple; yellow := c_yellow;
         milestone := c_milestone; critical := c_critical; near_term := c_near;
         mid_term := c_mid; far_term := c_far; tan_box := c_tan |}.

(** [bg_color_map.get(name, colors['pink'])] *)
Definition bg_color_map_get (colors : Colors) (name : string) : RGBColor :=
  if String.eqb name "pink" then pink colors
  else if String.eqb name "purple" then purple colors
  else if String.eqb name "yellow" then yellow colors
  else pink colors.

(** python-pptx writes the coordinates of a text box with [%d]: an [int]
    passes, a float that is NaN raises [ValueError] and an infinite one
    [OverflowError]. *)
Definition textbox_top (top : pynum) : result pynum :=
  match top with
  | PyInt _ => ret top
  | PyFloat f =>
      if is_nan f then raise ValueError
      else if is_infinity f then raise OverflowError
      else ret top
  end.

(** [top + height/2 - Inches(0.1)], the top of a vertically centred label, as
    [add_text_box] takes it: the division is a true division, the [int]
    operands are converted, and the float goes through [textbox_top]. *)
Definition label_top (top height : Z) : result pynum :=
  half <- true_div2 height ;;
  t <- float_of_int top ;;
  c <- float_of_int (Inch 0.1) ;;
  textbox_top (PyFloat (t + half - c)%float).

(** ** The timeline header (lines 177-195) *)

Definition timeline_cell (colors : Colors) (x_pos width : Z) (year : string)
  : list Shape :=
  [ add_rectangle x_pos header_top width header_height (Some (navy colors)) None;
    add_text_box x_pos (PyInt header_top) width header_height year 9 true
      (Some white) None CENTER false ].

Fixpoint timeline_loop (colors : Colors) (tl : list TimelineRow)
    (x_pos : Z) (year_positions : dict) : result (list Shape * Z * dict) :=
  match tl with
  | [] => ret ([], x_pos, year_positions)
  | row :: tl' =>
      let year := tl_Year row in
      width <- Inches (tl_Width row) ;;
      let cell := timeline_cell colors x_pos width year in
      let year_key := split_dash_0 year in
      let year_positions := dict_set year_key x_pos year_positions in
      let x_pos := x_pos + width in
      '(shapes, x_end, positions) <- timeline_loop colors tl' x_pos year_positions ;;
      ret (cell ++ shapes, x_end, positions)
  end.

(** ** Milestones of a row (lines 274-298) *)

(** The horizontal position of a milestone, [None] where the loop
    [continue]s.  The default of [year_positions.get] is evaluated before the
    call, so an empty dictionary raises [IndexError]. *)
Definition milestone_x (year_positions : dict) (year : string) : result (option Z) :=
  match dict_get year year_positions with
  | Some x => ret (Some (x + Inch 0.15))
  | None =>
      n <- int_str year ;;
      if 2029 <=? n then
        last <- list_last (dict_values year_positions) ;;
        ret (Some (match dict_get "2029" year_positions with
                   | Some x => x
                   | None => last
                   end + Inch 0.3))
      else ret None
  end.

Definition draw_milestone (colors : Colors) (year_positions : dict)
    (current_top : Z) (ms : MilestoneRow) : result (list Shape) :=
  let year := str_int (m_Year ms) in
  let v_offset := m_VerticalOffset ms in
  let text := m_Text ms in
  let is_critical := String.eqb (lower (m_IsCritical ms)) "yes" in
  found <- milestone_x year_positions year ;;
  match found with
  | None => ret []
  | Some x =>
      dy <- Inches v_offset ;;
      let y := current_top + dy in
      let text_color := if is_critical then critical colors else dark_gray in
      ret [ add_triangle_milestone x y (Inch 0.12) (milestone colors);
            add_text_box (x + Inch 0.14) (PyInt y) (Inch 0.9) (Inch 0.15) text 7
              false (Some text_color) None LEFT false ]
  end.

Fixpoint milestones_loop (colors : Colors) (year_positions : dict)
    (current_top : Z) (mss : list MilestoneRow) : result (list Shape) :=
  match mss with
  | [] => ret []
  | ms :: mss' =>
      shapes <- draw_milestone colors year_positions current_top ms ;;
      rest <- milestones_loop colors year_positions current_top mss' ;;
      ret (shapes ++ rest)
  end.

(** ** Rows of a goal (lines 224-309) *)

(** The variables the row loop updates: the vertical cursor and the run of
    rows that share the current STC label. *)
Record RowState : Set := {
  current_top : Z;
  current_stc : option string;
  stc_start_top : Z;
  stc_row_count : Z
}.

(** The merged STC cell: a rectangle and its centred label. *)
Definition stc_cell (colors : Colors) (start_top stc_height : Z) (label : string)
  : result (list Shape) :=
  top <- label_top start_top stc_height ;;
  ret [ add_rectangle 0 start_top stc_width stc_height (Some (navy colors)) None;
        add_text_box (Inch 0.02) top (stc_width - Inch 0.04) (Inch 0.25) label 9
          true (Some white) None CENTER false ].

(** [stc != current_stc] *)
Definition stc_differs (stc : string) (current : option string) : bool :=
  match current with
  | None => true
  | Some c => negb (String.eqb stc c)
  end.

(** [if current_stc is not None and stc_row_count > 0: ...], with the height
    the call site computes. *)
Definition close_stc (colors : Colors) (st : RowState) (stc_height : result Z)
  : result (list Shape) :=
  match current_stc st with
  | Some label =>
      if 0 <? stc_row_count st then
        h <- stc_height ;;
        stc_cell colors (stc_start_top st) h label
      else ret []
  | None => ret []
  end.

Definition grid_line (current_top row_height : Z) (entry : string * Z) : Shape :=
  Rectangle (snd entry) current_top (Pt 1) row_height (Some light_gray) None.

Definition draw_row (colors : Colors) (year_positions : dict)
    (total_grid_width : Z) (milestones_df : list MilestoneRow)
    (st : RowState) (row : RowsRow) : result (list Shape * RowState) :=
  let row_id := r_RowID row in
  let stc := r_STCLabel row in
  let fta := r_FTALabel row in
  let bg_color_name := lower (r_BackgroundColor row) in
  row_height <- Inches (r_RowHeight row) ;;
  let bg_color := bg_color_map_get colors bg_color_name in
  let top := current_top st in
  '(stc_shapes, st) <-
    (if stc_differs stc (current_stc st) then
       previous <- close_stc colors st (ret (row_height * stc_row_count st)) ;;
       ret (previous, {| current_top := top; current_stc := Some stc;
                         stc_start_top := top; stc_row_count := 1 |})
     else
       ret ([], {| current_top := top; current_stc := current_stc st;
                   stc_start_top := stc_start_top st;
                   stc_row_count := stc_row_count st + 1 |})) ;;
  fta_top <- label_top top row_height ;;
  let fta_shapes :=
    [ add_rectangle stc_width top fta_width row_height (Some (navy colors)) None;
      add_text_box (stc_width + Inch 0.25) fta_top (Inch 0.5) (Inch 0.25) fta 11
        true (Some white) None CENTER false ] in
  let background :=
    add_rectangle left_margin top (total_grid_width + Inch 1.0) row_height
      (Some bg_color) None in
  let lines := map (grid_line top row_height) year_positions in
  let row_milestones := filter (fun ms => m_RowID ms =? row_id) milestones_df in
  ms_shapes <- milestones_loop colors year_positions top row_milestones ;;
  ret (stc_shapes ++ fta_shapes ++ background :: lines ++ ms_shapes,
       {| current_top := top + row_height; current_stc := current_stc st;
          stc_start_top := stc_start_top st; stc_row_count := stc_row_count st |}).

Fixpoint rows_loop (colors : Colors) (year_positions : dict)
    (total_grid_width : Z) (milestones_df : list MilestoneRow)
    (goal_rows : list RowsRow) (st : RowState) : result (list Shape * RowState) :=
  match goal_rows with
  | [] => ret ([], st)
  | row :: goal_rows' =>
      '(shapes, st) <- draw_row colors year_positions total_grid_width
                         milestones_df st row ;;
      '(rest, st) <- rows_loop colors year_positions total_grid_width
                       milestones_df goal_rows' st ;;
      ret (shapes ++ rest, st)
  end.

(** [df['Row Height (inches)'].iloc[0]] *)
Definition first_row_height (goal_rows : list RowsRow) : result Z :=
  match goal_rows with
  | [] => raise IndexError
  | row :: _ => Inches (r_RowHeight row)
  end.

(** One goal block (lines 204-309).  The dictionary [stc_spans] of lines
    217-222 is filled and never read; it is left out. *)
Definition draw_goal (colors : Colors) (year_positions : dict)
    (total_grid_width : Z) (rows_df : list RowsRow)
    (milestones_df : list MilestoneRow) (top : Z) (goal : GoalRow)
  : result (list Shape * Z) :=
  let goal_id := g_GoalID goal in
  let goal_name := g_GoalName goal in
  let header :=
    add_text_box (Inch 0) (PyInt top) SLIDE_WIDTH (Inch 0.25) goal_name 12 true
      None None CENTER true in
  let top := top + Inch 0.3 in
  let goal_rows := filter (fun r => r_GoalID r =? goal_id) rows_df in
  '(shapes, st) <- rows_loop colors year_positions total_grid_width milestones_df
                     goal_rows
                     {| current_top := top; current_stc := None;
                        stc_start_top := top; stc_row_count := 0 |} ;;
  final <- close_stc colors st
             (h <- first_row_height (filter (fun r => r_GoalID r =? goal_id) rows_df) ;;
              ret (h * stc_row_count st)) ;;
  ret (header :: shapes ++ final, current_top st).

Fixpoint goals_loop (colors : Colors) (year_positions : dict)
    (total_grid_width : Z) (rows_df : list RowsRow)
    (milestones_df : list MilestoneRow) (goals_df : list GoalRow) (top : Z)
  : result (list Shape * Z) :=
  match goals_df with
  | [] => ret ([], top)
  | goal :: goals_df' =>
      '(shapes, top) <- draw_goal colors year_positions total_grid_width rows_df
                          milestones_df top goal ;;
      '(rest, top) <- goals_loop colors year_positions total_grid_width rows_df
                        milestones_df goals_df' top ;;
      ret (shapes ++ rest, top)
  end.

(** ** Term arrows and legend (lines 311-374) *)

(** [Inches(base + i * step)], for the index [i] of an [enumerate]. *)
Definition pitch (base step : float) (i : Z) : result Z :=
  fi <- float_of_int i ;;
  Inches (base + fi * step)%float.

Definition term_arrows (colors : Colors) (arrow_top : Z) : list Shape :=
  let arrow_height := Inch 0.35 in
  [ add_rectangle left_margin arrow_top (Inch 2.4) arrow_height
      (Some (near_term colors)) None;
    add_text_box left_margin (PyInt arrow_top) (Inch 2.4) arrow_height "Near Term"
      11 true (Some white) None CENTER true;
    add_rectangle (left_margin + Inch 2.3) arrow_top (Inch 2.0) arrow_height
      (Some (mid_term colors)) None;
    add_text_box (left_margin + Inch 2.3) (PyInt arrow_top) (Inch 2.0) arrow_height
      "Mid Term" 11 true (Some white) None CENTER true;
    add_rectangle (left_margin + Inch 4.2) arrow_top (Inch 3.4) arrow_height
      (Some (far_term colors)) None;
    add_text_box (left_margin + Inch 4.2) (PyInt arrow_top) (Inch 3.4) arrow_height
      "Far Term" 11 true (Some dark_gray) None CENTER true ].

Definition legend (colors : Colors) (legend_left legend_top : Z) : list Shape :=
  [ add_text_box legend_left (PyInt legend_top) (Inch 1) (Inch 0.2) "LEGEND" 8 true
      None None LEFT true;
    add_rectangle legend_left (legend_top + Inch 0.2) (Inch 1.3) (Inch 0.2)
      (Some (tan_box colors)) None;
    add_text_box legend_left (PyInt (legend_top + Inch 0.2)) (Inch 1.3) (Inch 0.2)
      "Strategic Test Capability" 7 false (Some white) None CENTER false;
    add_rectangle legend_left (legend_top + Inch 0.45) (Inch 1.3) (Inch 0.2)
      (Some (navy colors)) None;
    add_text_box legend_left (PyInt (legend_top + Inch 0.45)) (Inch 1.3) (Inch 0.2)
      "Functional Test Area" 7 false (Some white) None CENTER false;
    add_triangle_milestone legend_left (legend_top + Inch 0.7) (Inch 0.12)
      (milestone colors);
    add_text_box (legend_left + Inch 0.15) (PyInt (legend_top + Inch 0.7)) (Inch 1)
      (Inch 0.15) "Key Milestone" 7 false None None LEFT false ].

Definition uc_texts : list string :=
  [ "UC1 – Use case 1 text"; "UC2 – Use case 2 text";
    "UC3 – Use case 3 text"; "UC4 – Use case 4 text" ].

Fixpoint uc_texts_loop (uc_left legend_top : Z) (i : Z) (texts : list string)
  : result (list Shape) :=
  match texts with
  | [] => ret []
  | uc_text :: texts' =>
      dy <- pitch 0.35 0.15 i ;;
      rest <- uc_texts_loop uc_left legend_top (i + 1) texts' ;;
      ret (add_text_box uc_left (PyInt (legend_top + dy)) (Inch 1.5) (Inch 0.15)
             uc_text 7 false None None LEFT false :: rest)
  end.

Fixpoint usecases_loop (uc_indicator_left legend_top : Z) (i : Z)
    (usecases_df : list UseCaseRow) : result (list Shape) :=
  match usecases_df with
  | [] => ret []
  | uc :: usecases_df' =>
      let uc_id := uc_UseCaseID uc in
      uc_color <- hex_to_rgb (uc_Color uc) ;;
      dy <- pitch 0.2 0.2 i ;;
      dy' <- pitch 0.2 0.2 i ;;
      rest <- usecases_loop uc_indicator_left legend_top (i + 1) usecases_df' ;;
      ret (add_triangle_milestone uc_indicator_left (legend_top + dy) (Inch 0.1)
             uc_color
           :: add_text_box (uc_indicator_left + Inch 0.12) (PyInt (legend_top + dy'))
                (Inch 1.2) (Inch 0.12) uc_id 6 false None None LEFT false
           :: rest)
  end.

(** ** The layout pass (lines 117-376) *)

Definition slide_head (colors : Colors) (title : string) : list Shape :=
  [ Rectangle 0 0 SLIDE_WIDTH SLIDE_HEIGHT (Some (RGB 0xe0 0xe0 0xd0)) None;
    add_text_box (Inch 0) (PyInt (Inch 0.15)) SLIDE_WIDTH (Inch 0.5) title 24 true
      None None CENTER true;
    add_rectangle left_margin header_top (Inch 1.0) header_height
      (Some (navy colors)) None;
    add_text_box left_margin (PyInt header_top) (Inch 1.0) header_height
      "Fiscal Years →" 9 true (Some white) None CENTER false ].

(** The shapes of the slide of the presentation the function returns. *)
Definition create_roadmap_from_data (data : Data) : result (list Shape) :=
  colors <- parse_colors (settings data) ;;
  let title := settings_get (settings data) "Title" "Roadmap" in
  let head := slide_head colors title in
  '(header, x_pos, year_positions) <-
    timeline_loop colors (timeline data) (left_margin + Inch 1.0) [] ;;
  let total_grid_width := x_pos - left_margin - Inch 1.0 in
  '(blocks, top) <-
    goals_loop colors year_positions total_grid_width (rows data)
      (milestones data) (goals data) (Inch 0.95) ;;
  let arrow_top := top + Inch 0.1 in
  let legend_top := arrow_top + Inch 0.5 in
  let legend_left := Inch 0.3 in
  let uc_left := legend_left + Inch 1.6 in
  let heading :=
    add_text_box uc_left (PyInt (legend_top + Inch 0.2)) (Inch 1.5) (Inch 0.15)
      "Use Cases:" 7 true None None LEFT false in
  captions <- uc_texts_loop uc_left legend_top 0 uc_texts ;;
  let uc_indicator_left := uc_left + Inch 1.7 in
  indicators <- usecases_loop uc_indicator_left legend_top 0 (usecases data) ;;
  ret (head ++ header ++ blocks ++ term_arrows colors arrow_top
       ++ legend colors legend_left legend_top ++ heading :: captions
       ++ indicators).

(** ** The template workbook of [create_excel_template.py] *)

Definition template : Data := {|
  settings :=
    [ ("Title", "Dummy data Infrastructure Capstone Roadmap");
      ("Navy Color", "1A1A4E"); ("Pink Background", "FFE0E0");
      ("Purple Background", "E0D8F0"); ("Yellow Background", "FFF0D0");
      ("Milestone Color", "F0C040"); ("Critical Text Color", "CC0000");
      ("Near Term Color", "555555"); ("Mid Term Color", "C8A080");
      ("Far Term Color", "E8D8C8") ];
  timeline :=
    [ Build_TimelineRow "2023" 0.8 "No"; Build_TimelineRow "2024" 0.8 "No";
      Build_TimelineRow "2025" 0.8 "No"; Build_TimelineRow "2026" 0.8 "No";
      Build_TimelineRow "2027" 0.8 "No"; Build_TimelineRow "2028" 0.8 "No";
      Build_TimelineRow "2029-2053" 1.8 "Yes" ];
  goals :=
    [ Build_GoalRow 1 "Overarching goal 1"; Build_GoalRow 2 "Overarching goal 2" ];
  rows :=
    [ Build_RowsRow 1 "STC1" "FTA1" "Pink" 1 0.6;
      Build_RowsRow 2 "STC1" "FTA2" "Pink" 1 0.6;
      Build_RowsRow 3 "STC3" "FTA3" "Purple" 1 0.6;
      Build_RowsRow 4 "STC2" "FTA4" "Purple" 1 0.6;
      Build_RowsRow 5 "STC4" "FTA5" "Yellow" 2 0.6;
      Build_RowsRow 6 "STC4" "FTA6" "Yellow" 2 0.6 ];
  milestones :=
    [ Build_MilestoneRow 1 2024 0.15 "Critical Goal Text" "Yes";
      Build_MilestoneRow 1 2027 0.2 "Goal text" "No";
      Build_MilestoneRow 1 2028 0.35 "Goal text" "No";
      Build_MilestoneRow 2 2025 0.1 "Goal text" "No";
      Build_MilestoneRow 2 2026 0.08 "Critical Goal Text" "Yes";
      Build_MilestoneRow 2 2026 0.25 "Critical Goal Text" "Yes";
      Build_MilestoneRow 2 2026 0.42 "Critical Goal Text" "Yes";
      Build_MilestoneRow 2 2027 0.1 "Goal text" "No";
      Build_MilestoneRow 2 2029 0.25 "Critical Goal Text" "Yes";
      Build_MilestoneRow 3 2025 0.35 "Goal text" "No";
      Build_MilestoneRow 3 2026 0.1 "Goal text" "No";
      Build_MilestoneRow 3 2027 0.4 "Goal text" "No";
      Build_MilestoneRow 3 2028 0.15 "Goal text" "No";
      Build_MilestoneRow 4 2025 0.12 "Goal text" "No";
      Build_MilestoneRow 4 2027 0.22 "Critical Goal Text" "Yes";
      Build_MilestoneRow 4 2027 0.42 "Goal text" "No";
      Build_MilestoneRow 5 2024 0.12 "Goal text" "No";
      Build_MilestoneRow 5 2026 0.08 "Goal text" "No";
      Build_MilestoneRow 5 2026 0.28 "Goal text" "No";
      Build_MilestoneRow 5 2027 0.38 "Critical Goal Text" "Yes";
      Build_MilestoneRow 6 2023 0.2 "Goal text" "No";
      Build_MilestoneRow 6 2027 0.08 "Critical Goal Text" "Yes";
      Build_MilestoneRow 6 2027 0.25 "Goal text" "No";
      Build_MilestoneRow 6 2027 0.42 "Critical Goal Text" "Yes" ];
  usecases :=
    [ Build_UseCaseRow "UC1, UC2, UC3, UC4" "All use cases" "F0C040";
      Build_UseCaseRow "UC1, UC2" "Use case 1 text, Use case 2 text" "E8A060";
      Build_UseCaseRow "UC2, UC4" "Use case 2 text, Use case 4 text" "F0D080" ]
|}.

(** ** Vocabulary of the statements *)

Definition sum (l : list Z) : Z := fold_right Z.add 0 l.

(** The positions a cursor takes when it starts at [start] and advances by
    each size in turn. *)
Fixpoint cursor_positions (start : Z) (sizes : list Z) : list Z :=
  match sizes with
  | [] => []
  | s :: sizes' => start :: cursor_positions (start + s) sizes'
  end.

Fixpoint strictly_increasing (l : list Z) : Prop :=
  match l with
  | [] => True
  | x :: l' => Forall (fun y => x < y) l' /\ strictly_increasing l'
  end.

Definition year_key (e : TimelineRow) : string := split_dash_0 (tl_Year e).

(** The EMU widths of the timeline entries, and the EMU heights of rows. *)
Definition widths_of (tl : list TimelineRow) (ws : list Z) : Prop :=
  Forall2 (fun e w => Inches (tl_Width e) = ret w) tl ws.

Definition heights_of (rs : list RowsRow) (hs : list Z) : Prop :=
  Forall2 (fun r h => Inches (r_RowHeight r) = ret h) rs hs.

(** The header cells of the columns, left to right. *)
Fixpoint header_cells (colors : Colors) (x : Z) (tl : list TimelineRow)
    (ws : list Z) : list Shape :=
  match tl, ws with
  | e :: tl', w :: ws' =>
      timeline_cell colors x w (tl_Year e) ++ header_cells colors (x + w) tl' ws'
  | _, _ => []
  end.

(** The dictionary after the columns are recorded, left to right. *)
Fixpoint record_columns (x : Z) (tl : list TimelineRow) (ws : list Z) (d : dict)
  : dict :=
  match tl, ws with
  | e :: tl', w :: ws' => record_columns (x + w) tl' ws' (dict_set (year_key e) x d)
  | _, _ => d
  end.

(** The left x-offsets of the rectangles among some shapes; in the timeline
    header the rectangles are the column cells. *)
Fixpoint rect_lefts (shapes : list Shape) : list Z :=
  match shapes with
  | [] => []
  | Rectangle x _ _ _ _ _ :: shapes' => x :: rect_lefts shapes'
  | _ :: shapes' => rect_lefts shapes'
  end.

Fixpoint rect_widths (shapes : list Shape) : list Z :=
  match shapes with
  | [] => []
  | Rectangle _ _ w _ _ _ :: shapes' => w :: rect_widths shapes'
  | _ :: shapes' => rect_widths shapes'
  end.

(** A width cell that holds a positive number. *)
Definition positive_width (e : TimelineRow) : Prop :=
  (0 <? tl_Width e)%float = true.

(** The colours of an empty Settings sheet. *)
Definition default_colors : Colors := {|
  navy := RGB 0x1A 0x1A 0x4E; pink := RGB 0xFF 0xE0 0xE0;
  purple := RGB 0xE0 0xD8 0xF0; yellow := RGB 0xFF 0xF0 0xD0;
  milestone := RGB 0xF0 0xC0 0x40; critical := RGB 0xCC 0 0;
  near_term := RGB 0x55 0x55 0x55; mid_term := RGB 0xC8 0xA0 0x80;
  far_term := RGB 0xE8 0xD8 0xC8; tan_box := RGB 0xC0 0xA0 0x80 |}.

(** A timeline whose first column is a ten-millionth of an inch wide. *)
Definition tiny_timeline : list TimelineRow :=
  [ Build_TimelineRow "2023" 1e-7 "No"; Build_TimelineRow "2024" 0.8 "No" ].

(** The column positions of the template's timeline. *)
Definition template_positions : dict :=
  [ ("2023", 2194560); ("2024", 2926080); ("2025", 3657600); ("2026", 4389120);
    ("2027", 5120640); ("2028", 5852160); ("2029", 6583680) ].

(** *** The overflow rule in the words of the specification

    The overflow column is the timeline entry flagged as such, or the last
    entry when none is flagged; the threshold is its leading year; a year
    that is no key is placed at the overflow column's x plus the inset
    exactly when it reaches the threshold. *)

Definition is_overflow_column (e : TimelineRow) : bool :=
  String.eqb (lower (tl_IsLastColumn e)) "yes".

Definition spec_overflow_column (tl : list TimelineRow) : option TimelineRow :=
  match find is_overflow_column tl with
  | Some e => Some e
  | None => nth_error tl (List.length tl - 1)%nat
  end.

Definition spec_overflow_rule (tl : list TimelineRow) (year : Z) : Prop :=
  forall shapes x_end yp e threshold x,
    timeline_loop default_colors tl (left_margin + Inch 1.0) []
    = ret (shapes, x_end, yp) ->
    dict_get (str_int year) yp = None ->
    spec_overflow_column tl = Some e ->
    int_str (year_key e) = ret threshold ->
    dict_get (year_key e) yp = Some x ->
    (milestone_x yp (str_int year) = ret (Some (x + Inch 0.3))
     <-> threshold <= year).

(** A timeline whose flagged overflow column starts in 2030. *)
Definition late_timeline : list TimelineRow :=
  [ Build_TimelineRow "2023" 0.8 "No"; Build_TimelineRow "2024" 0.8 "No";
    Build_TimelineRow "2030-2053" 1.8 "Yes" ].

(** The shapes of a row that do not depend on its milestones or on the STC
    run: the FTA cell and its label, the background, the grid lines. *)
Definition row_band (colors : Colors) (year_positions : dict)
    (total_grid_width top row_height : Z) (row : RowsRow) (fta_top : pynum)
  : list Shape :=
  [ Rectangle stc_width top fta_width row_height (Some (navy colors)) None;
    TextBox (stc_width + Inch 0.25) fta_top (Inch 0.5) (Inch 0.25)
      (r_FTALabel row) 11 true false (Some white) None CENTER;
    Rectangle left_margin top (total_grid_width + Inch 1.0) row_height
      (Some (bg_color_map_get colors (lower (r_BackgroundColor row)))) None ]
  ++ map (fun entry =>
            Rectangle (snd entry) top (Pt 1) row_height (Some light_gray) None)
       year_positions.


(** The slide of the template workbook. *)
Definition template_shapes : list Shape :=
  Eval vm_compute in
    match create_roadmap_from_data template with
    | inr shapes => shapes
    | inl _ => []
    end.

(** The shapes of consecutive rows: each row contributes the STC cell it
    closes, if any, its band at the cursor with its label centred, and its
    milestones; the next row starts where the band ends. *)
Inductive stacked (colors : Colors) (year_positions : dict) (total_grid_width : Z)
  : Z -> list RowsRow -> list Z -> list Shape -> Prop :=
| stacked_nil top : stacked colors year_positions total_grid_width top [] [] []
| stacked_cons top row rows h hs stc_shapes fta_top ms_shapes rest :
    label_top top h = ret fta_top ->
    stacked colors year_positions total_grid_width (top + h) rows hs rest ->
    stacked colors year_positions total_grid_width top (row :: rows) (h :: hs)
      (stc_shapes
       ++ row_band colors year_positions total_grid_width top h row fta_top
       ++ ms_shapes ++ rest).

(** The rows of the first goal of the template, as the row loop draws them. *)
Definition template_goal_1 : list Shape * Z :=
  Eval vm_compute in
    match draw_goal default_colors template_positions 6035040 (rows template)
            (milestones template) (Inch 0.95) (Build_GoalRow 1 "Overarching goal 1")
    with
    | inr r => r
    | inl _ => ([], 0)
    end.

(** Workbooks that differ in one sheet, rows that differ in one cell. *)
Definition with_timeline (d : Data) (tl : list TimelineRow) : Data :=
  {| settings := settings d; timeline := tl; goals := goals d; rows := rows d;
     milestones := milestones d; usecases := usecases d |}.

Definition with_rows (d : Data) (rs : list RowsRow) : Data :=
  {| settings := settings d; timeline := timeline d; goals := goals d; rows := rs;
     milestones := milestones d; usecases := usecases d |}.

Definition with_milestones (d : Data) (mss : list MilestoneRow) : Data :=
  {| settings := settings d; timeline := timeline d; goals := goals d;
     rows := rows d; milestones := mss; usecases := usecases d |}.

Definition with_goals (d : Data) (gs : list GoalRow) : Data :=
  {| settings := settings d; timeline := timeline d; goals := gs;
     rows := rows d; milestones := milestones d; usecases := usecases d |}.

Definition with_background (r : RowsRow) (name : string) : RowsRow :=
  {| r_RowID := r_RowID r; r_STCLabel := r_STCLabel r; r_FTALabel := r_FTALabel r;
     r_BackgroundColor := name; r_GoalID := r_GoalID r;
     r_RowHeight := r_RowHeight r |}.

(** Two timeline entries with the same label and width: they differ at most
    in their ['Is Last Column'] cell. *)
Definition same_column (a b : TimelineRow) : Prop :=
  tl_Year a = tl_Year b /\ tl_Width a = tl_Width b.

(** A row of the template with a colour name the map does not know. *)
Definition green_row : RowsRow := Build_RowsRow 1 "STC1" "FTA1" "Green" 1 0.6.

Definition first_row_state : RowState :=
  {| current_top := Inch 0.95 + Inch 0.3; current_stc := None;
     stc_start_top := Inch 0.95 + Inch 0.3; stc_row_count := 0 |}.

(** *** Milestones that cannot be placed

    The year, printed, is no column key and is below the overflow constant,
    or the row id is the id of no row. *)
Definition unplaceable (d : Data) (ms : MilestoneRow) : Prop :=
  (~ In (str_int (m_Year ms)) (map year_key (timeline d)) /\ m_Year ms < 2029)
  \/ (forall r, In r (rows d) -> r_RowID r <> m_RowID ms).

(** In the words of the specification, a warning for every skipped milestone
    is returned alongside the shapes: some reading [warnings_of] of what the
    layout returns lists the unplaceable milestones of the workbook, and
    milestones of the workbook only. *)
Definition reports_skipped
    (warnings_of : result (list Shape) -> list MilestoneRow) : Prop :=
  forall d,
    (forall ms,
        In ms (milestones d) -> unplaceable d ms ->
        In ms (warnings_of (create_roadmap_from_data d))) /\
    (forall ms,
        In ms (warnings_of (create_roadmap_from_data d)) -> In ms (milestones d)).

(** A milestone of 1999 on the first row, before the first column. *)
Definition early_milestone : MilestoneRow :=
  Build_MilestoneRow 1 1999 0.1 "Goal text" "No".

(** *** Structural violations, in the words of the specification *)

Inductive structural_violation (d : Data) : Prop :=
| width_not_positive e :
    In e (timeline d) -> (tl_Width e <=? 0)%float = true ->
    structural_violation d
| height_not_positive r :
    In r (rows d) -> (r_RowHeight r <=? 0)%float = true ->
    structural_violation d
| duplicate_goal_id :
    ~ NoDup (map g_GoalID (goals d)) -> structural_violation d
| unknown_goal r :
    In r (rows d) -> ~ In (r_GoalID r) (map g_GoalID (goals d)) ->
    structural_violation d
| several_overflow_columns :
    (1 < List.length (filter is_overflow_column (timeline d)))%nat ->
    structural_violation d
| overflow_column_not_last tl1 e tl2 :
    timeline d = tl1 ++ e :: tl2 -> is_overflow_column e = true -> tl2 <> [] ->
    structural_violation d.

(** The layout fails, and so emits nothing. *)
Definition fails (d : Data) : Prop :=
  exists e, create_roadmap_from_data d = raise e.

(** The template with one violation each. *)
Definition zero_width_book : Data :=
  with_timeline template
    (Build_TimelineRow "2022" 0 "No" :: timeline template).

Definition zero_height_book : Data :=
  with_rows template
    (Build_RowsRow 7 "STC5" "FTA7" "Pink" 2 0 :: rows template).

Definition duplicate_goal_book : Data :=
  with_goals template
    [ Build_GoalRow 1 "Overarching goal 1"; Build_GoalRow 1 "Overarching goal 2" ].

Definition unknown_goal_book : Data :=
  with_rows template
    (Build_RowsRow 7 "STC5" "FTA7" "Pink" 99 0.6 :: rows template).

Definition two_overflow_book : Data :=
  with_timeline template
    [ Build_TimelineRow "2023" 0.8 "Yes"; Build_TimelineRow "2029-2053" 1.8 "Yes" ].

Definition overflow_first_book : Data :=
  with_timeline template
    [ Build_TimelineRow "2029-2053" 1.8 "Yes"; Build_TimelineRow "2023" 0.8 "No" ].

(** The tops and heights of the rectangles that start at [x]. *)
Fixpoint rects_at (x : Z) (shapes : list Shape) : list (Z * Z) :=
  match shapes with
  | [] => []
  | Rectangle l t _ h _ _ :: shapes' =>
      if l =? x then (t, h) :: rects_at x shapes' else rects_at x shapes'
  | _ :: shapes' => rects_at x shapes'
  end.

(** The template with two rows of different heights and different STC
    labels under the first goal. *)
Definition uneven_book : Data :=
  with_rows template
    [ Build_RowsRow 1 "STC1" "FTA1" "Pink" 1 0.6;
      Build_RowsRow 2 "STC2" "FTA2" "Purple" 1 0.4 ].

(** ** Loading the workbook (lines 91-114)

    [load_excel_data] reads the six sheets with [pd.read_excel] and turns the
    Settings sheet into a dictionary with [dict(zip(...))]; the sheets as
    read are the input here. *)

Record Workbook : Set := {
  sheet_Settings : list (string * string);
  sheet_Timeline : list TimelineRow;
  sheet_Goals : list GoalRow;
  sheet_Rows : list RowsRow;
  sheet_Milestones : list MilestoneRow;
  sheet_UseCases : list UseCaseRow
}.

(** [d[k] = v] on a dictionary of strings. *)
Fixpoint settings_set (k v : string) (d : list (string * string))
  : list (string * string) :=
  match d with
  | [] => [(k, v)]
  | (k', v') :: d' =>
      if String.eqb k' k then (k, v) :: d' else (k', v') :: settings_set k v d'
  end.

(** [dict(zip(settings_df['Setting'], settings_df['Value']))] *)
Definition dict_zip (items : list (string * string)) : list (string * string) :=
  fold_left (fun d kv => settings_set (fst kv) (snd kv) d) items [].

Definition load_excel_data (wb : Workbook) : Data := {|
  settings := dict_zip (sheet_Settings wb);
  timeline := sheet_Timeline wb;
  goals := sheet_Goals wb;
  rows := sheet_Rows wb;
  milestones := sheet_Milestones wb;
  usecases := sheet_UseCases wb
|}.

(** ** Further vocabulary *)

(** [n] hash signs before [s]. *)
Fixpoint hashes (n : nat) (s : string) : string :=
  match n with
  | O => s
  | S n' => String "#" (hashes n' s)
  end.

(** The value of the last row of the Settings sheet with the key [key]. *)
Definition last_value (items : list (string * string)) (key : string)
  : option string :=
  option_map snd (find (fun kv => String.eqb (fst kv) key) (rev items)).

(** The settings the layout reads colours from, with their defaults. *)
Definition color_settings : list (string * string) :=
  [ ("Navy Color", "1A1A4E"); ("Pink Background", "FFE0E0");
    ("Purple Background", "E0D8F0"); ("Yellow Background", "FFF0D0");
    ("Milestone Color", "F0C040"); ("Critical Text Color", "CC0000");
    ("Near Term Color", "555555"); ("Mid Term Color", "C8A080");
    ("Far Term Color", "E8D8C8") ].

Definition with_usecases (d : Data) (ucs : list UseCaseRow) : Data :=
  {| settings := settings d; timeline := timeline d; goals := goals d;
     rows := rows d; milestones := milestones d; usecases := ucs |}.

(** Two use cases with the same id and colour: they differ at most in their
    description. *)
Definition same_usecase (a b : UseCaseRow) : Prop :=
  uc_UseCaseID a = uc_UseCaseID b /\ uc_Color a = uc_Color b.

(** A row that is drawn: a row of the Rows sheet under a goal of the Goals
    sheet. *)
Definition drawn_row (d : Data) (row : RowsRow) : Prop :=
  In row (rows d)
  /\ exists goal, In goal (goals d) /\ r_GoalID row = g_GoalID goal.

(** A cell the layout converts and cannot: a timeline width, the height of a
    drawn row, the vertical offset of a milestone of a drawn row whose year
    is a column key or at least 2029, the colour of a use case. *)
Inductive bad_cell (d : Data) : Prop :=
| bad_width e err :
    In e (timeline d) -> Inches (tl_Width e) = raise err -> bad_cell d
| bad_height row err :
    drawn_row d row -> Inches (r_RowHeight row) = raise err -> bad_cell d
| bad_offset row ms err :
    drawn_row d row -> In ms (milestones d) -> m_RowID ms = r_RowID row ->
    In (str_int (m_Year ms)) (map year_key (timeline d)) \/ 2029 <= m_Year ms ->
    Inches (m_VerticalOffset ms) = raise err -> bad_cell d
| bad_usecase_color uc err :
    In uc (usecases d) -> hex_to_rgb (uc_Color uc) = raise err -> bad_cell d.

(** The goal title of a block. *)
Definition goal_title (top : Z) (goal : GoalRow) : Shape :=
  add_text_box (Inch 0) (PyInt top) SLIDE_WIDTH (Inch 0.25) (g_GoalName goal) 12
    true None None CENTER true.

(** The EMU heights of the rows of each goal, goal by goal. *)
Definition block_heights (d : Data) (hss : list (list Z)) : Prop :=
  Forall2
    (fun goal hs =>
       heights_of (filter (fun r => r_GoalID r =? g_GoalID goal) (rows d)) hs)
    (goals d) hss.

(** Where the cursor stands below the blocks: each block takes
    [Inches(0.3)] for its title and the heights of its rows. *)
Definition blocks_bottom (hss : list (list Z)) : Z :=
  Inch 0.95 + sum (map (fun hs => Inch 0.3 + sum hs) hss).

(** *** Runs of rows that share an STC label *)

(** The rectangles of the STC column, at x = 0 and of width [stc_width], as
    pairs of top and height.  Within a goal block they are the merged cells:
    the FTA cells and backgrounds start further right and a grid line is one
    point wide. *)
Definition is_stc_cell (l w : Z) : bool := (l =? 0) && (w =? stc_width).

Fixpoint stc_cells (shapes : list Shape) : list (Z * Z) :=
  match shapes with
  | [] => []
  | Rectangle l t w h _ _ :: shapes' =>
      if is_stc_cell l w then (t, h) :: stc_cells shapes' else stc_cells shapes'
  | _ :: shapes' => stc_cells shapes'
  end.

(** The maximal runs of consecutive rows with the same label: each run is
    its label and the heights of its rows. *)
Definition merge_run (l : string) (hs : list Z) (rs : list (string * list Z))
  : list (string * list Z) :=
  match rs with
  | (l', hs') :: rs' =>
      if String.eqb l l' then (l, hs ++ hs') :: rs' else (l, hs) :: rs
  | [] => [(l, hs)]
  end.

Fixpoint runs (rows : list (string * Z)) : list (string * list Z) :=
  match rows with
  | [] => []
  | (l, h) :: rows' => merge_run l [h] (runs rows')
  end.

(** The labels and EMU heights of rows. *)
Definition labelled (rows : list RowsRow) (hs : list Z) : list (string * Z) :=
  combine (map r_STCLabel rows) hs.

(** One cell per run, at the top of the run; its height is the number of
    rows of the run times the height of the first row of the next run, or
    times [h_first] for the last run. *)
Fixpoint run_cells (top : Z) (rs : list (string * list Z)) (h_first : Z)
  : list (Z * Z) :=
  match rs with
  | [] => []
  | (_, hs) :: rs' =>
      let next := match rs' with
                  | (_, h' :: _) :: _ => h'
                  | _ => h_first
                  end in
      (top, next * Z.of_nat (List.length hs))
      :: run_cells (top + sum hs) rs' h_first
  end.

(** One cell per run that spans the rows of the run. *)
Fixpoint span_cells (top : Z) (rs : list (string * list Z)) : list (Z * Z) :=
  match rs with
  | [] => []
  | (_, hs) :: rs' => (top, sum hs) :: span_cells (top + sum hs) rs'
  end.

(** The rows of a run, and the labels of neighbouring runs. *)
Definition run_rows (r : string * list Z) : list (string * Z) :=
  map (pair (fst r)) (snd r).

Fixpoint neighbours_differ (rs : list (string * list Z)) : Prop :=
  match rs with
  | r :: (r' :: _) as rs' => fst r <> fst r' /\ neighbours_differ rs'
  | _ => True
  end.

(** The block of the first goal of the template with rows of 0.6 and 0.4
    inch (no layout constant depends on it). *)
Definition uneven_goal_1 : list Shape * Z :=
  Eval vm_compute in
    match draw_goal default_colors template_positions 6035040 (rows uneven_book)
            (milestones template) (Inch 0.95) (Build_GoalRow 1 "Overarching goal 1")
    with
    | inr r => r
    | inl _ => ([], 0)
    end.

(** *** Rows in place *)

(** Where the cursor stands when row [k] of goal [j] is drawn: below the
    blocks of the goals before, the title of the goal and the rows before. *)
Definition row_top_of (hss : list (list Z)) (j : nat) (hs : list Z) (k : nat)
  : Z :=
  blocks_bottom (firstn j hss) + Inch 0.3 + sum (firstn k hs).

(** A height cell that holds a positive number. *)
Definition positive_height (r : RowsRow) : Prop :=
  (0 <? r_RowHeight r)%float = true.

(** Two rows of the first goal, each a ten-millionth of an inch high. *)
Definition tiny_rows : list RowsRow :=
  [ Build_RowsRow 1 "STC1" "FTA1" "Pink" 1 1e-7;
    Build_RowsRow 2 "STC1" "FTA2" "Pink" 1 1e-7 ].

(** * Proofs *)

(** ** The exception monad *)

Lemma bind_ret_inv {A B} (m : result A) (k : A -> result B) (b : B) :
  bind m k = inr b -> exists a, m = inr a /\ k a = inr b.
Proof.
  destruct m as [e | a]; simpl; intros H.
  - discriminate H.
  - exists a. split; [reflexivity | exact H].
Qed.

Lemma ret_inj {A} (a b : A) : @ret A a = inr b -> a = b.
Proof. intros H. injection H. trivial. Qed.

(** Inversion of a [bind] that returns: [bind_inv H as x Hx] names the value
    of the first computation and the equation that gives it. *)
Tactic Notation "bind_inv" hyp(H) "as" simple_intropattern(x) ident(Hx) :=
  apply bind_ret_inv in H; destruct H as (x & Hx & H); cbv beta iota in H.

(** ** The built-ins on literals *)

Example Inches_literals :
  Inches 0.6 = ret 548640 /\ Inches 13.333 = ret 12191695 /\
  Inches (-0.6) = ret (-548640) /\ Inches 1e-7 = ret 0 /\
  Inches nan = raise ValueError /\ Inches infinity = raise OverflowError.
Proof. repeat split. Qed.

Example pitch_rounds_as_binary64 :
  pitch 0.35 0.15 1 = ret 457200 /\ pitch 0.35 0.15 2 = ret 594359.
Proof. split; reflexivity. Qed.

Example hex_to_rgb_literals :
  hex_to_rgb "1A1A4E" = ret (RGB 26 26 78) /\
  hex_to_rgb "#ffe0e0" = ret (RGB 255 224 224) /\
  hex_to_rgb "1A1A" = raise ValueError /\
  hex_to_rgb "GG0000" = raise ValueError.
Proof. repeat split. Qed.

Example label_top_literal : label_top 1143000 548640 = ret (PyFloat 1325880).
Proof. reflexivity. Qed.

Example template_colors : parse_colors (settings template) = ret default_colors.
Proof. reflexivity. Qed.

Example template_columns :
  exists header,
    timeline_loop default_colors (timeline template) (left_margin + Inch 1.0) []
    = ret (header, 8229600, template_positions)
    /\ 8229600 - left_margin - Inch 1.0 = 6035040.
Proof. eexists. split; reflexivity. Qed.

Example template_is_laid_out :
  create_roadmap_from_data template = ret template_shapes.
Proof. vm_compute. reflexivity. Qed.

(** ** The dictionary *)

Lemma dict_get_set_same k v d : dict_get k (dict_set k v d) = Some v.
Proof.
  induction d as [| [k' v'] d IH]; simpl.
  - now rewrite String.eqb_refl.
  - destruct (String.eqb k' k) eqn:E; simpl.
    + now rewrite String.eqb_refl.
    + now rewrite E.
Qed.

Lemma dict_get_set_other k k' v d :
  k <> k' -> dict_get k' (dict_set k v d) = dict_get k' d.
Proof.
  intros Hk. induction d as [| [k0 v0] d IH]; simpl.
  - apply String.eqb_neq in Hk. now rewrite Hk.
  - destruct (String.eqb k0 k) eqn:E; simpl.
    + apply String.eqb_eq in E. subst k0.
      apply String.eqb_neq in Hk. now rewrite Hk.
    + now rewrite IH.
Qed.

Lemma dict_keys_set k v d k' :
  In k' (map fst (dict_set k v d)) <-> k' = k \/ In k' (map fst d).
Proof.
  induction d as [| [k0 v0] d IH]; simpl.
  - intuition.
  - destruct (String.eqb k0 k) eqn:E; simpl.
    + apply String.eqb_eq in E. subst k0. intuition.
    + rewrite IH. intuition.
Qed.

Lemma dict_set_not_nil k v d : dict_set k v d <> [].
Proof.
  destruct d as [| [k0 v0] d]; simpl; [discriminate |].
  destruct (String.eqb k0 k); discriminate.
Qed.

Lemma list_last_cons v l : exists w, list_last (v :: l) = ret w.
Proof.
  unfold list_last. simpl. destruct (rev l ++ [v]) eqn:E.
  - destruct (rev l); discriminate E.
  - eexists. reflexivity.
Qed.

(** ** The timeline header *)

Lemma timeline_loop_eq colors tl ws :
  widths_of tl ws ->
  forall x d,
    timeline_loop colors tl x d
    = ret (header_cells colors x tl ws, x + sum ws, record_columns x tl ws d).
Proof.
  induction 1 as [| e w tl ws He _ IH]; intros x d; simpl.
  - now rewrite Z.add_0_r.
  - rewrite He. simpl. rewrite IH. simpl.
    unfold ret. do 3 f_equal. lia.
Qed.

Lemma timeline_loop_inv colors tl :
  forall x d shapes x_end yp,
    timeline_loop colors tl x d = ret (shapes, x_end, yp) ->
    exists ws,
      widths_of tl ws /\
      shapes = header_cells colors x tl ws /\
      x_end = x + sum ws /\
      yp = record_columns x tl ws d.
Proof.
  induction tl as [| e tl IH]; intros x d shapes x_end yp H; simpl in H.
  - apply ret_inj in H. injection H as <- <- <-.
    exists []. repeat split; [constructor | simpl; lia].
  - bind_inv H as w Hw. bind_inv H as [[sh xe] yp'] Hloop.
    apply ret_inj in H. injection H as <- <- <-.
    destruct (IH _ _ _ _ _ Hloop) as (ws & Hws & -> & -> & ->).
    exists (w :: ws). repeat split.
    + constructor; assumption.
    + simpl. lia.
Qed.

Lemma rect_lefts_header colors tl ws :
  widths_of tl ws ->
  forall x, rect_lefts (header_cells colors x tl ws) = cursor_positions x ws.
Proof.
  induction 1 as [| e w tl ws _ _ IH]; intros x; simpl; [reflexivity |].
  now rewrite IH.
Qed.

Lemma rect_widths_header colors tl ws :
  widths_of tl ws ->
  forall x, rect_widths (header_cells colors x tl ws) = ws.
Proof.
  induction 1 as [| e w tl ws _ _ IH]; intros x; simpl; [reflexivity |].
  now rewrite IH.
Qed.

Lemma cursor_positions_above x ws :
  Forall (fun w => 0 < w) ws ->
  forall y, x < y -> Forall (fun p => x < p) (cursor_positions y ws).
Proof.
  induction 1 as [| w ws Hw _ IH]; intros y Hy; simpl; constructor.
  - exact Hy.
  - apply IH. lia.
Qed.

Lemma cursor_positions_increasing ws :
  Forall (fun w => 0 < w) ws ->
  forall x, strictly_increasing (cursor_positions x ws).
Proof.
  induction 1 as [| w ws Hw Hws IH]; intros x; simpl; [exact I |].
  split.
  - apply cursor_positions_above; [assumption | lia].
  - apply IH.
Qed.

Lemma record_columns_keys tl ws :
  widths_of tl ws ->
  forall x d k,
    In k (map fst (record_columns x tl ws d))
    <-> In k (map year_key tl) \/ In k (map fst d).
Proof.
  induction 1 as [| e w tl ws _ _ IH]; intros x d k; simpl.
  - intuition.
  - rewrite IH, dict_keys_set. intuition.
Qed.

Lemma record_columns_other tl ws :
  widths_of tl ws ->
  forall x d k,
    ~ In k (map year_key tl) ->
    dict_get k (record_columns x tl ws d) = dict_get k d.
Proof.
  induction 1 as [| e w tl ws _ _ IH]; intros x d k Hk; simpl; [reflexivity |].
  simpl in Hk. rewrite IH by tauto.
  apply dict_get_set_other. intros E. apply Hk. now left.
Qed.

(** A key stands for the last column recorded under it. *)
Lemma record_columns_last tl ws :
  widths_of tl ws ->
  forall x d i e,
    nth_error tl i = Some e ->
    ~ In (year_key e) (map year_key (skipn (S i) tl)) ->
    dict_get (year_key e) (record_columns x tl ws d)
    = nth_error (cursor_positions x ws) i.
Proof.
  induction 1 as [| e0 w tl ws _ Hws IH]; intros x d i e Hi Hlast.
  - destruct i; discriminate Hi.
  - destruct i as [| i]; simpl in *.
    + injection Hi as ->.
      rewrite (record_columns_other _ _ Hws) by assumption.
      apply dict_get_set_same.
    + now apply IH.
Qed.

Lemma timeline_keys colors tl x shapes x_end yp k :
  timeline_loop colors tl x [] = ret (shapes, x_end, yp) ->
  ~ In k (map year_key tl) ->
  dict_get k yp = None.
Proof.
  intros H Hk.
  destruct (timeline_loop_inv _ _ _ _ _ _ _ H) as (ws & Hws & _ & _ & ->).
  now rewrite (record_columns_other _ _ Hws).
Qed.

(** C5, as amended.  When every timeline width converts to a positive number
    of EMU, the header loop returns; the left x-offsets of the column cells
    are the cursor positions from [left_margin + Inches(1.0)] and are
    strictly increasing in entry order; the keys of [year_positions] are the
    texts of the labels before their first dash, each key standing for the
    last column recorded under it; and the column widths add up to
    [total_grid_width]. *)
Theorem timeline_columns colors tl ws :
  widths_of tl ws ->
  Forall (fun w => 0 < w) ws ->
  exists shapes x_end yp,
    timeline_loop colors tl (left_margin + Inch 1.0) [] = ret (shapes, x_end, yp) /\
    rect_lefts shapes = cursor_positions (left_margin + Inch 1.0) ws /\
    strictly_increasing (rect_lefts shapes) /\
    rect_widths shapes = ws /\
    (forall k, In k (map fst yp) <-> In k (map year_key tl)) /\
    (forall i e,
        nth_error tl i = Some e ->
        ~ In (year_key e) (map year_key (skipn (S i) tl)) ->
        dict_get (year_key e) yp = nth_error (rect_lefts shapes) i) /\
    sum (rect_widths shapes) = x_end - left_margin - Inch 1.0.
Proof.
  intros Hws Hpos.
  eexists _, _, _. split; [apply timeline_loop_eq; exact Hws |].
  rewrite (rect_lefts_header _ _ _ Hws), (rect_widths_header _ _ _ Hws).
  repeat split.
  - now apply cursor_positions_increasing.
  - intros Hk. apply (record_columns_keys _ _ Hws) in Hk.
    destruct Hk as [Hk | []]. exact Hk.
  - intros Hk. apply (record_columns_keys _ _ Hws). now left.
  - intros i e Hi Hlast. now apply record_columns_last.
  - lia.
Qed.

Lemma timeline_columns_witness :
  exists shapes x_end yp,
    timeline_loop default_colors (timeline template) (left_margin + Inch 1.0) []
    = ret (shapes, x_end, yp) /\
    rect_lefts shapes
    = cursor_positions (left_margin + Inch 1.0)
        [731520; 731520; 731520; 731520; 731520; 731520; 1645920] /\
    strictly_increasing (rect_lefts shapes) /\
    rect_widths shapes
    = [731520; 731520; 731520; 731520; 731520; 731520; 1645920] /\
    (forall k, In k (map fst yp) <-> In k (map year_key (timeline template))) /\
    (forall i e,
        nth_error (timeline template) i = Some e ->
        ~ In (year_key e) (map year_key (skipn (S i) (timeline template))) ->
        dict_get (year_key e) yp = nth_error (rect_lefts shapes) i) /\
    sum (rect_widths shapes) = x_end - left_margin - Inch 1.0.
Proof.
  apply (timeline_columns default_colors (timeline template)
           [731520; 731520; 731520; 731520; 731520; 731520; 1645920]).
  - repeat constructor.
  - repeat constructor.
Defined.

(** C5, as stated, fails: a width of a ten-millionth of an inch is positive
    and converts to zero EMU, so the two columns start at the same x. *)
Lemma tiny_width_columns_coincide :
  Forall positive_width tiny_timeline /\
  exists shapes x_end yp,
    timeline_loop default_colors tiny_timeline (left_margin + Inch 1.0) []
    = ret (shapes, x_end, yp) /\
    rect_lefts shapes = [2194560; 2194560] /\
    ~ strictly_increasing (rect_lefts shapes).
Proof.
  split.
  - repeat constructor.
  - eexists _, _, _. split; [reflexivity |]. split; [reflexivity |].
    simpl. intros [H _]. inversion H. lia.
Qed.

(** ** Milestones *)

Lemma int_str_str_int n : int_str (str_int n) = ret n.
Proof.
  unfold int_str, str_int.
  rewrite NilZero.isi.
  - now rewrite DecimalZ.of_to.
  - destruct n; simpl; intros [= E]; try discriminate E.
    now apply DecimalPos.Unsigned.to_uint_nonnil in E.
  - destruct n; simpl; intros [= E].
    now apply DecimalPos.Unsigned.to_uint_nonnil in E.
Qed.


Lemma milestone_x_not_key yp year :
  dict_get (str_int year) yp = None ->
  milestone_x yp (str_int year)
  = if 2029 <=? year then
      last <- list_last (dict_values yp) ;;
      ret (Some (match dict_get "2029" yp with
                 | Some x => x
                 | None => last
                 end + Inch 0.3))
    else ret None.
Proof.
  intros H. unfold milestone_x. rewrite H, int_str_str_int. reflexivity.
Qed.

Lemma list_last_dict yp :
  yp <> [] -> exists last, list_last (dict_values yp) = ret last.
Proof.
  destruct yp as [| [k v] yp]; [congruence | intros _].
  apply list_last_cons.
Qed.

Lemma record_columns_not_nil tl ws :
  forall x d, d <> [] -> record_columns x tl ws d <> [].
Proof.
  revert ws. induction tl as [| e tl IH]; intros [| w ws] x d Hd; simpl; try exact Hd.
  apply IH, dict_set_not_nil.
Qed.

Lemma timeline_positions_not_nil colors tl x shapes x_end yp :
  timeline_loop colors tl x [] = ret (shapes, x_end, yp) ->
  tl <> [] ->
  yp <> [].
Proof.
  intros H Htl.
  destruct (timeline_loop_inv _ _ _ _ _ _ _ H) as (ws & Hws & _ & _ & ->).
  destruct Hws as [| e w tl ws _ _]; [congruence |].
  simpl. apply record_columns_not_nil. discriminate.
Qed.

(** C2, as amended.  Over a timeline with at least one column, for a year
    that, printed, is the key of no column, the milestone is placed exactly
    when the year is at least 2029, at the position of the column keyed
    ["2029"] or, without such a key, of the last key recorded, plus
    [Inches(0.3)]; below 2029 the loop [continue]s. *)
Theorem overflow_rule colors tl x shapes x_end yp year :
  timeline_loop colors tl x [] = ret (shapes, x_end, yp) ->
  tl <> [] ->
  ~ In (str_int year) (map year_key tl) ->
  exists last,
    list_last (dict_values yp) = ret last /\
    milestone_x yp (str_int year)
    = ret (if 2029 <=? year
           then Some (match dict_get "2029" yp with
                      | Some x => x
                      | None => last
                      end + Inch 0.3)
           else None).
Proof.
  intros Htl Hne Hkey.
  destruct (list_last_dict yp (timeline_positions_not_nil _ _ _ _ _ _ Htl Hne))
    as [last Hlast].
  exists last. split; [exact Hlast |].
  rewrite (milestone_x_not_key _ _ (timeline_keys _ _ _ _ _ _ _ Htl Hkey)), Hlast.
  now destruct (2029 <=? year).
Qed.

Lemma overflow_rule_witness :
  exists last,
    list_last (dict_values template_positions) = ret last /\
    milestone_x template_positions (str_int 2031)
    = ret (if 2029 <=? 2031
           then Some (match dict_get "2029" template_positions with
                      | Some x => x
                      | None => last
                      end + Inch 0.3)
           else None).
Proof.
  apply (overflow_rule default_colors (timeline template) (left_margin + Inch 1.0)
           (header_cells default_colors (left_margin + Inch 1.0) (timeline template)
              [731520; 731520; 731520; 731520; 731520; 731520; 1645920])
           8229600 template_positions 2031).
  - reflexivity.
  - discriminate.
  - simpl. intuition discriminate.
Defined.

(** C2, as stated, fails: with the overflow column flagged at "2030-2053" the
    threshold of the specification is 2030, and the code places a milestone
    of 2029 at that column's x plus the inset. *)
Lemma flagged_threshold_not_used : ~ spec_overflow_rule late_timeline 2029.
Proof.
  intros H.
  specialize (H _ _ _ (Build_TimelineRow "2030-2053" 1.8 "Yes") 2030 3657600
                eq_refl eq_refl eq_refl eq_refl eq_refl).
  destruct H as [H _]. specialize (H eq_refl). lia.
Qed.


Lemma draw_milestone_skip colors yp top ms :
  dict_get (str_int (m_Year ms)) yp = None ->
  m_Year ms < 2029 ->
  draw_milestone colors yp top ms = ret [].
Proof.
  intros H Hy. unfold draw_milestone. rewrite (milestone_x_not_key _ _ H).
  destruct (2029 <=? m_Year ms) eqn:E; [| reflexivity].
  apply Z.leb_le in E. lia.
Qed.

Lemma milestones_loop_app colors yp top l1 l2 :
  milestones_loop colors yp top (l1 ++ l2)
  = s1 <- milestones_loop colors yp top l1 ;;
    s2 <- milestones_loop colors yp top l2 ;;
    ret (s1 ++ s2).
Proof.
  induction l1 as [| ms l1 IH]; simpl.
  - now destruct (milestones_loop colors yp top l2).
  - destruct (draw_milestone colors yp top ms) as [e | sh]; simpl; [reflexivity |].
    rewrite IH.
    destruct (milestones_loop colors yp top l1) as [e | s1]; simpl; [reflexivity |].
    destruct (milestones_loop colors yp top l2) as [e | s2]; simpl; [reflexivity |].
    now rewrite app_assoc.
Qed.

Lemma milestones_loop_In colors yp top mss :
  forall shapes ms,
    milestones_loop colors yp top mss = ret shapes ->
    In ms mss ->
    exists sh, draw_milestone colors yp top ms = ret sh /\ incl sh shapes.
Proof.
  induction mss as [| m mss IH]; intros shapes ms H Hin; [destruct Hin |].
  simpl in H. bind_inv H as sh Hsh. bind_inv H as rest Hrest.
  apply ret_inj in H. subst shapes.
  destruct Hin as [-> | Hin].
  - exists sh. split; [exact Hsh | apply incl_appl, incl_refl].
  - destruct (IH _ _ Hrest Hin) as (sh' & Hsh' & Hincl).
    exists sh'. split; [exact Hsh' | now apply incl_appr].
Qed.

(** ** Rows *)

Lemma draw_row_inv colors yp tgw mss st row shapes st' :
  draw_row colors yp tgw mss st row = ret (shapes, st') ->
  exists h stc_shapes fta_top ms_shapes,
    Inches (r_RowHeight row) = ret h /\
    label_top (current_top st) h = ret fta_top /\
    milestones_loop colors yp (current_top st)
      (filter (fun ms => m_RowID ms =? r_RowID row) mss) = ret ms_shapes /\
    shapes
    = stc_shapes ++ row_band colors yp tgw (current_top st) h row fta_top
      ++ ms_shapes /\
    current_top st' = current_top st + h.
Proof.
  unfold draw_row. intros H.
  bind_inv H as h Hh. bind_inv H as [stc_shapes st1] Hstc.
  bind_inv H as fta_top Hfta. bind_inv H as ms_shapes Hms.
  apply ret_inj in H. injection H as <- <-.
  exists h, stc_shapes, fta_top, ms_shapes.
  repeat split; assumption.
Qed.

Lemma rows_loop_In colors yp tgw mss rows :
  forall st shapes st' row,
    rows_loop colors yp tgw mss rows st = ret (shapes, st') ->
    In row rows ->
    exists st_r sh st_r',
      draw_row colors yp tgw mss st_r row = ret (sh, st_r') /\ incl sh shapes.
Proof.
  induction rows as [| r rows IH]; intros st shapes st' row H Hin; [destruct Hin |].
  simpl in H. bind_inv H as [sh st1] Hsh. bind_inv H as [rest st2] Hrest.
  apply ret_inj in H. injection H as <- <-.
  destruct Hin as [-> | Hin].
  - exists st, sh, st1. split; [exact Hsh | apply incl_appl, incl_refl].
  - destruct (IH _ _ _ _ Hrest Hin) as (st_r & sh' & st_r' & Hrow & Hincl).
    exists st_r, sh', st_r'. split; [exact Hrow | now apply incl_appr].
Qed.

Lemma draw_goal_inv colors yp tgw rows mss top goal shapes top' :
  draw_goal colors yp tgw rows mss top goal = ret (shapes, top') ->
  exists sh st final,
    rows_loop colors yp tgw mss (filter (fun r => r_GoalID r =? g_GoalID goal) rows)
      {| current_top := top + Inch 0.3; current_stc := None;
         stc_start_top := top + Inch 0.3; stc_row_count := 0 |}
    = ret (sh, st) /\
    shapes
    = add_text_box (Inch 0) (PyInt top) SLIDE_WIDTH (Inch 0.25) (g_GoalName goal)
        12 true None None CENTER true :: sh ++ final /\
    top' = current_top st.
Proof.
  unfold draw_goal. intros H.
  bind_inv H as [sh st] Hsh. bind_inv H as final Hfinal.
  apply ret_inj in H. injection H as <- <-.
  exists sh, st, final. repeat split. exact Hsh.
Qed.

Lemma goals_loop_In colors yp tgw rows mss goals :
  forall top shapes top' goal,
    goals_loop colors yp tgw rows mss goals top = ret (shapes, top') ->
    In goal goals ->
    exists top_g sh top_g',
      draw_goal colors yp tgw rows mss top_g goal = ret (sh, top_g') /\
      incl sh shapes.
Proof.
  induction goals as [| g goals IH]; intros top shapes top' goal H Hin; [destruct Hin |].
  simpl in H. bind_inv H as [sh top1] Hsh. bind_inv H as [rest top2] Hrest.
  apply ret_inj in H. injection H as <- <-.
  destruct Hin as [-> | Hin].
  - exists top, sh, top1. split; [exact Hsh | apply incl_appl, incl_refl].
  - destruct (IH _ _ _ _ Hrest Hin) as (top_g & sh' & top_g' & Hg & Hincl).
    exists top_g, sh', top_g'. split; [exact Hg | now apply incl_appr].
Qed.

Lemma create_roadmap_inv data shapes :
  create_roadmap_from_data data = ret shapes ->
  exists colors header x_end yp blocks top,
    parse_colors (settings data) = ret colors /\
    timeline_loop colors (timeline data) (left_margin + Inch 1.0) []
    = ret (header, x_end, yp) /\
    goals_loop colors yp (x_end - left_margin - Inch 1.0) (rows data)
      (milestones data) (goals data) (Inch 0.95) = ret (blocks, top) /\
    incl header shapes /\
    incl blocks shapes.
Proof.
  unfold create_roadmap_from_data. intros H.
  bind_inv H as colors Hcolors. bind_inv H as [[header x_end] yp] Htl.
  bind_inv H as [blocks top] Hgoals. bind_inv H as captions Hcap.
  bind_inv H as indicators Hind.
  apply ret_inj in H. subst shapes.
  exists colors, header, x_end, yp, blocks, top.
  repeat split; try assumption.
  - apply incl_appr, incl_appl, incl_refl.
  - apply incl_appr, incl_appr, incl_appl, incl_refl.
Qed.

Lemma cursor_positions_length ws :
  forall x, List.length (cursor_positions x ws) = List.length ws.
Proof. induction ws as [| w ws IH]; intros x; simpl; [| rewrite IH]; reflexivity. Qed.

Lemma cursor_positions_nth tl ws x i (e : TimelineRow) :
  widths_of tl ws ->
  nth_error tl i = Some e ->
  exists p, nth_error (cursor_positions x ws) i = Some p.
Proof.
  intros Hws Hi.
  destruct (nth_error (cursor_positions x ws) i) as [p |] eqn:E; [now exists p |].
  apply nth_error_None in E. rewrite cursor_positions_length in E.
  rewrite <- (Forall2_length Hws) in E.
  apply nth_error_None in E. congruence.
Qed.

Lemma rows_loop_stacked colors yp tgw mss rows :
  forall st shapes st',
    rows_loop colors yp tgw mss rows st = ret (shapes, st') ->
    exists hs,
      heights_of rows hs /\
      stacked colors yp tgw (current_top st) rows hs shapes /\
      current_top st' = current_top st + sum hs.
Proof.
  induction rows as [| row rows IH]; intros st shapes st' H; simpl in H.
  - apply ret_inj in H. injection H as <- <-.
    exists []. repeat split; [constructor | constructor | simpl; lia].
  - bind_inv H as [sh st1] Hrow. bind_inv H as [rest st2] Hrest.
    apply ret_inj in H. injection H as <- <-.
    destruct (draw_row_inv _ _ _ _ _ _ _ _ Hrow)
      as (h & stc_shapes & fta_top & ms_shapes & Hh & Hfta & _ & -> & Htop).
    destruct (IH _ _ _ Hrest) as (hs & Hhs & Hst & Hend).
    exists (h :: hs). repeat split.
    + constructor; assumption.
    + rewrite <- !app_assoc. constructor; [exact Hfta | now rewrite <- Htop].
    + simpl. lia.
Qed.

(** C6, as amended.  When the block of a goal is drawn, every row of the
    goal, in the declared order, has its band at the cursor with the height
    its [Row Height (inches)] converts to in whole EMU ([Inches] truncates),
    the next row starts exactly where the band ends, and the cursor leaves
    the block at its start below the goal title plus the sum of those EMU
    heights. *)
Theorem goal_rows_stack colors yp tgw rows mss top goal shapes top' :
  draw_goal colors yp tgw rows mss top goal = ret (shapes, top') ->
  exists hs row_shapes final,
    heights_of (filter (fun r => r_GoalID r =? g_GoalID goal) rows) hs /\
    stacked colors yp tgw (top + Inch 0.3)
      (filter (fun r => r_GoalID r =? g_GoalID goal) rows) hs row_shapes /\
    shapes
    = TextBox (Inch 0) (PyInt top) SLIDE_WIDTH (Inch 0.25) (g_GoalName goal)
        12 true true None None CENTER :: row_shapes ++ final /\
    top' = top + Inch 0.3 + sum hs.
Proof.
  intros H.
  destruct (draw_goal_inv _ _ _ _ _ _ _ _ _ H) as (sh & st & final & Hrows & -> & ->).
  destruct (rows_loop_stacked _ _ _ _ _ _ _ _ Hrows) as (hs & Hhs & Hst & Hend).
  exists hs, sh, final. repeat split; assumption.
Qed.

Lemma goal_rows_stack_witness :
  exists hs row_shapes final,
    heights_of (filter (fun r => r_GoalID r =? 1) (rows template)) hs /\
    stacked default_colors template_positions 6035040 (Inch 0.95 + Inch 0.3)
      (filter (fun r => r_GoalID r =? 1) (rows template)) hs row_shapes /\
    fst template_goal_1
    = TextBox (Inch 0) (PyInt (Inch 0.95)) SLIDE_WIDTH (Inch 0.25)
        "Overarching goal 1" 12 true true None None CENTER :: row_shapes ++ final /\
    snd template_goal_1 = Inch 0.95 + Inch 0.3 + sum hs.
Proof.
  apply (goal_rows_stack default_colors template_positions 6035040 (rows template)
           (milestones template) (Inch 0.95) (Build_GoalRow 1 "Overarching goal 1")).
  vm_compute. reflexivity.
Defined.

(** C6, as stated, fails: two rows of a ten-millionth of an inch have
    positive heights, yet each converts to zero EMU, so both FTA cells (at
    [stc_width]) have the same top and no height, and the cursor leaves the
    block where the rows began: the emitted heights add up to nothing. *)
Lemma tiny_rows_share_a_top :
  Forall positive_height tiny_rows /\
  exists shapes top',
    draw_goal default_colors template_positions 6035040 tiny_rows []
      (Inch 0.95) (Build_GoalRow 1 "Overarching goal 1") = ret (shapes, top') /\
    rects_at stc_width shapes = [(1143000, 0); (1143000, 0)] /\
    top' = Inch 0.95 + Inch 0.3.
Proof.
  split; [repeat constructor |].
  eexists _, _. split; [vm_compute; reflexivity |].
  split; reflexivity.
Qed.

(** C10.  A row whose colour name, in lower case, is none of [pink], [purple]
    and [yellow] is drawn exactly as the same row with the name [pink]: the
    same shapes or the same exception, so the unknown name raises nothing of
    its own; and when the row is drawn, its background rectangle, from
    [left_margin] at the row's top over the grid width plus one inch, is
    filled with the pink background colour and has no outline. *)
Theorem unknown_background_is_pink colors yp tgw mss st row :
  lower (r_BackgroundColor row) <> "pink" ->
  lower (r_BackgroundColor row) <> "purple" ->
  lower (r_BackgroundColor row) <> "yellow" ->
  bg_color_map_get colors (lower (r_BackgroundColor row)) = pink colors /\
  draw_row colors yp tgw mss st row
  = draw_row colors yp tgw mss st (with_background row "pink") /\
  (forall shapes st',
      draw_row colors yp tgw mss st row = ret (shapes, st') ->
      exists h,
        Inches (r_RowHeight row) = ret h /\
        In (Rectangle left_margin (current_top st) (tgw + Inch 1.0) h
              (Some (pink colors)) None) shapes).
Proof.
  intros Hpink Hpurple Hyellow.
  assert (Hbg : bg_color_map_get colors (lower (r_BackgroundColor row)) = pink colors).
  { unfold bg_color_map_get.
    apply String.eqb_neq in Hpink, Hpurple, Hyellow.
    now rewrite Hpink, Hpurple, Hyellow. }
  split; [exact Hbg |]. split.
  - unfold draw_row. simpl. rewrite Hbg. reflexivity.
  - intros shapes st' H.
    destruct (draw_row_inv _ _ _ _ _ _ _ _ H)
      as (h & stc_shapes & fta_top & ms_shapes & Hh & _ & _ & -> & _).
    exists h. split; [exact Hh |].
    apply in_or_app. right. apply in_or_app. left.
    unfold row_band. rewrite Hbg. simpl. tauto.
Qed.

Lemma unknown_background_is_pink_witness :
  bg_color_map_get default_colors (lower "Green") = pink default_colors /\
  draw_row default_colors template_positions 6035040 (milestones template)
    first_row_state green_row
  = draw_row default_colors template_positions 6035040 (milestones template)
      first_row_state (with_background green_row "pink") /\
  (forall shapes st',
      draw_row default_colors template_positions 6035040 (milestones template)
        first_row_state green_row = ret (shapes, st') ->
      exists h,
        Inches 0.6 = ret h /\
        In (Rectangle left_margin (Inch 0.95 + Inch 0.3) (6035040 + Inch 1.0) h
              (Some (pink default_colors)) None) shapes).
Proof.
  apply (unknown_background_is_pink default_colors template_positions 6035040
           (milestones template) first_row_state green_row);
    discriminate.
Defined.

(** ** The overflow flag *)

Lemma timeline_loop_same_columns colors tl tl' :
  Forall2 same_column tl tl' ->
  forall x d, timeline_loop colors tl x d = timeline_loop colors tl' x d.
Proof.
  induction 1 as [| a b tl tl' [Hy Hw] _ IH]; intros x d; simpl; [reflexivity |].
  rewrite Hy, Hw.
  destruct (Inches (tl_Width b)) as [e | w]; simpl; [reflexivity |].
  now rewrite IH.
Qed.

(** C9.  Two workbooks whose timelines differ only in ['Is Last Column']
    cells have the same layout, shape for shape or exception for exception;
    and for a year that is no column key the position is decided by the
    constant 2029 and the column keyed ["2029"], or else the last key
    recorded. *)
Theorem overflow_flag_not_read data tl' :
  Forall2 same_column (timeline data) tl' ->
  create_roadmap_from_data (with_timeline data tl') = create_roadmap_from_data data
  /\ (forall yp year,
        dict_get (str_int year) yp = None ->
        milestone_x yp (str_int year)
        = if 2029 <=? year then
            last <- list_last (dict_values yp) ;;
            ret (Some (match dict_get "2029" yp with
                       | Some x => x
                       | None => last
                       end + Inch 0.3))
          else ret None).
Proof.
  intros Hsame. split.
  - unfold create_roadmap_from_data. simpl.
    destruct (parse_colors (settings data)) as [e | colors]; simpl; [reflexivity |].
    now rewrite (timeline_loop_same_columns _ _ _ Hsame).
  - apply milestone_x_not_key.
Qed.

Lemma overflow_flag_not_read_witness :
  create_roadmap_from_data
    (with_timeline template
       (map (fun e => Build_TimelineRow (tl_Year e) (tl_Width e) "Yes")
          (timeline template)))
  = create_roadmap_from_data template
  /\ (forall yp year,
        dict_get (str_int year) yp = None ->
        milestone_x yp (str_int year)
        = if 2029 <=? year then
            last <- list_last (dict_values yp) ;;
            ret (Some (match dict_get "2029" yp with
                       | Some x => x
                       | None => last
                       end + Inch 0.3))
          else ret None).
Proof.
  apply (overflow_flag_not_read template).
  repeat constructor.
Defined.

(** ** Skipped milestones *)

Section MilestoneSheet.

(** The layout of the rows depends on the Milestones sheet only through the
    milestone loop of each row. *)
Variables (colors : Colors) (yp : dict) (tgw : Z).

Lemma milestones_loop_drop top (f : MilestoneRow -> bool) ms1 ms ms2 :
  f ms = false \/ draw_milestone colors yp top ms = ret [] ->
  milestones_loop colors yp top (filter f (ms1 ++ ms :: ms2))
  = milestones_loop colors yp top (filter f (ms1 ++ ms2)).
Proof.
  intros H. rewrite !filter_app. simpl.
  destruct (f ms) eqn:E; [| reflexivity].
  destruct H as [H | H]; [discriminate H |].
  rewrite !milestones_loop_app. simpl. rewrite H. simpl.
  destruct (milestones_loop colors yp top (filter f ms1)) as [e | s1]; simpl;
    [reflexivity |].
  now destruct (milestones_loop colors yp top (filter f ms2)).
Qed.

Lemma draw_row_ext mss mss' st row :
  milestones_loop colors yp (current_top st)
    (filter (fun ms => m_RowID ms =? r_RowID row) mss)
  = milestones_loop colors yp (current_top st)
      (filter (fun ms => m_RowID ms =? r_RowID row) mss') ->
  draw_row colors yp tgw mss st row = draw_row colors yp tgw mss' st row.
Proof.
  intros H. unfold draw_row.
  destruct (Inches (r_RowHeight row)) as [e | h]; simpl; [reflexivity |].
  match goal with
  | |- bind ?m _ = bind ?m _ => destruct m as [e | [stc_shapes st1]]
  end; simpl; [reflexivity |].
  destruct (label_top (current_top st) h) as [e | fta_top]; simpl; [reflexivity |].
  now rewrite H.
Qed.

Lemma rows_loop_ext mss mss' rows :
  (forall row st, In row rows ->
     draw_row colors yp tgw mss st row = draw_row colors yp tgw mss' st row) ->
  forall st, rows_loop colors yp tgw mss rows st = rows_loop colors yp tgw mss' rows st.
Proof.
  induction rows as [| row rows IH]; intros H st; simpl; [reflexivity |].
  rewrite (H row st) by now left.
  destruct (draw_row colors yp tgw mss' st row) as [e | [sh st1]]; simpl;
    [reflexivity |].
  rewrite IH; [reflexivity |].
  intros r s Hr. apply H. now right.
Qed.

Lemma draw_goal_ext rows mss mss' top goal :
  (forall row st, In row rows ->
     draw_row colors yp tgw mss st row = draw_row colors yp tgw mss' st row) ->
  draw_goal colors yp tgw rows mss top goal
  = draw_goal colors yp tgw rows mss' top goal.
Proof.
  intros H. unfold draw_goal.
  rewrite (rows_loop_ext mss mss'); [reflexivity |].
  intros row st Hrow. apply H. apply filter_In in Hrow. tauto.
Qed.

Lemma goals_loop_ext rows mss mss' goals :
  (forall row st, In row rows ->
     draw_row colors yp tgw mss st row = draw_row colors yp tgw mss' st row) ->
  forall top,
    goals_loop colors yp tgw rows mss goals top
    = goals_loop colors yp tgw rows mss' goals top.
Proof.
  intros H. induction goals as [| goal goals IH]; intros top; simpl; [reflexivity |].
  rewrite (draw_goal_ext _ mss mss' _ _ H).
  destruct (draw_goal colors yp tgw rows mss' top goal) as [e | [sh top1]]; simpl;
    [reflexivity |].
  now rewrite IH.
Qed.

End MilestoneSheet.

(** C4, as amended.  A milestone that cannot be placed (its year, printed, is
    no column key and is below 2029, or its row id is the id of no row) is
    skipped without a trace: the layout returns what it returns for the
    workbook without that milestone, the same shapes or the same exception,
    and nothing else, so the rest of the output is unchanged and no warning
    exists. *)
Theorem unplaceable_milestone_skipped data ms1 ms ms2 :
  milestones data = ms1 ++ ms :: ms2 ->
  unplaceable data ms ->
  create_roadmap_from_data data
  = create_roadmap_from_data (with_milestones data (ms1 ++ ms2)).
Proof.
  intros Hms Hun. unfold create_roadmap_from_data. simpl.
  destruct (parse_colors (settings data)) as [e | colors]; simpl; [reflexivity |].
  destruct (timeline_loop colors (timeline data) (left_margin + Inch 1.0) [])
    as [e | [[header x_end] yp]] eqn:Htl; simpl; [reflexivity |].
  rewrite (goals_loop_ext _ _ _ _ (milestones data) (ms1 ++ ms2)); [reflexivity |].
  intros row st Hrow. apply draw_row_ext. rewrite Hms.
  apply milestones_loop_drop.
  destruct Hun as [[Hkey Hyear] | Hrows].
  - right. apply draw_milestone_skip; [| exact Hyear].
    exact (timeline_keys _ _ _ _ _ _ _ Htl Hkey).
  - left. apply Z.eqb_neq. intros E. now apply (Hrows row Hrow).
Qed.

Lemma unplaceable_milestone_skipped_witness :
  create_roadmap_from_data
    (with_milestones template (early_milestone :: milestones template))
  = create_roadmap_from_data
      (with_milestones
         (with_milestones template (early_milestone :: milestones template))
         ([] ++ milestones template)).
Proof.
  apply (unplaceable_milestone_skipped
           (with_milestones template (early_milestone :: milestones template))
           [] early_milestone (milestones template)).
  - reflexivity.
  - left. split; [simpl; intuition discriminate | simpl; lia].
Defined.

(** C4, as stated, fails: no reading of the returned value is a list of
    warnings, because the workbook with the milestone of 1999 and the workbook
    without it return the same slide. *)
Lemma no_warning_is_returned : ~ exists warnings_of, reports_skipped warnings_of.
Proof.
  intros [warnings_of H].
  destruct (H (with_milestones template (early_milestone :: milestones template)))
    as [Hin _].
  destruct (H template) as [_ Honly].
  assert (Hsame : create_roadmap_from_data
                    (with_milestones template
                       (early_milestone :: milestones template))
                  = create_roadmap_from_data template)
    by (vm_compute; reflexivity).
  rewrite Hsame in Hin.
  assert (Hw : In early_milestone (warnings_of (create_roadmap_from_data template))).
  { apply Hin; [now left |].
    left. split; [simpl; intuition discriminate | simpl; lia]. }
  apply Honly in Hw. simpl in Hw. unfold early_milestone in Hw.
  intuition discriminate.
Qed.

(** ** Structure is not validated *)

Lemma goals_loop_rows_ext colors yp tgw rows rows' mss goals :
  (forall goal top, In goal goals ->
     draw_goal colors yp tgw rows mss top goal
     = draw_goal colors yp tgw rows' mss top goal) ->
  forall top,
    goals_loop colors yp tgw rows mss goals top
    = goals_loop colors yp tgw rows' mss goals top.
Proof.
  induction goals as [| goal goals IH]; intros H top; simpl; [reflexivity |].
  rewrite (H goal top) by now left.
  destruct (draw_goal colors yp tgw rows' mss top goal) as [e | [sh top1]]; simpl;
    [reflexivity |].
  rewrite IH; [reflexivity |].
  intros g t Hg. apply H. now right.
Qed.

Lemma goals_loop_app colors yp tgw rows mss gs1 gs2 :
  forall top,
    goals_loop colors yp tgw rows mss (gs1 ++ gs2) top
    = '(s1, top1) <- goals_loop colors yp tgw rows mss gs1 top ;;
      '(s2, top2) <- goals_loop colors yp tgw rows mss gs2 top1 ;;
      ret (s1 ++ s2, top2).
Proof.
  induction gs1 as [| g gs1 IH]; intros top; simpl.
  - now destruct (goals_loop colors yp tgw rows mss gs2 top) as [e | [s2 top2]].
  - destruct (draw_goal colors yp tgw rows mss top g) as [e | [sh top1]]; simpl;
      [reflexivity |].
    rewrite IH.
    destruct (goals_loop colors yp tgw rows mss gs1 top1) as [e | [s1 top2]]; simpl;
      [reflexivity |].
    destruct (goals_loop colors yp tgw rows mss gs2 top2) as [e | [s2 top3]]; simpl;
      [reflexivity |].
    now rewrite app_assoc.
Qed.

Lemma filter_drop_row (goal : GoalRow) rs1 (r : RowsRow) rs2 :
  r_GoalID r <> g_GoalID goal ->
  filter (fun r => r_GoalID r =? g_GoalID goal) (rs1 ++ r :: rs2)
  = filter (fun r => r_GoalID r =? g_GoalID goal) (rs1 ++ rs2).
Proof.
  intros H. rewrite !filter_app. simpl.
  apply Z.eqb_neq in H. now rewrite H.
Qed.

(** C7, as amended.  The layout validates nothing.  Its outcome, shapes or
    exception, is the same whatever the ['Is Last Column'] cells hold, and
    the same with or without a row whose goal id is the id of no goal; the
    header loop returns the columns for widths of any sign; a row that is
    drawn moves the cursor by its height of any sign; and the goal loop draws
    the goals entry by entry, a repeated id like any other. *)
Theorem structure_not_validated data :
  (forall tl',
      Forall2 same_column (timeline data) tl' ->
      create_roadmap_from_data (with_timeline data tl')
      = create_roadmap_from_data data) /\
  (forall rs1 r rs2,
      rows data = rs1 ++ r :: rs2 ->
      ~ In (r_GoalID r) (map g_GoalID (goals data)) ->
      create_roadmap_from_data data
      = create_roadmap_from_data (with_rows data (rs1 ++ rs2))) /\
  (forall colors ws x,
      widths_of (timeline data) ws ->
      timeline_loop colors (timeline data) x []
      = ret (header_cells colors x (timeline data) ws, x + sum ws,
             record_columns x (timeline data) ws [])) /\
  (forall colors yp tgw st row shapes st',
      draw_row colors yp tgw (milestones data) st row = ret (shapes, st') ->
      exists h,
        Inches (r_RowHeight row) = ret h /\ current_top st' = current_top st + h) /\
  (forall colors yp tgw gs1 gs2 top,
      goals data = gs1 ++ gs2 ->
      goals_loop colors yp tgw (rows data) (milestones data) (goals data) top
      = '(s1, top1) <- goals_loop colors yp tgw (rows data) (milestones data)
                         gs1 top ;;
        '(s2, top2) <- goals_loop colors yp tgw (rows data) (milestones data)
                         gs2 top1 ;;
        ret (s1 ++ s2, top2)).
Proof.
  split; [| split; [| split; [| split]]].
  - intros tl' Hsame. unfold create_roadmap_from_data. simpl.
    destruct (parse_colors (settings data)) as [e | colors]; simpl; [reflexivity |].
    now rewrite (timeline_loop_same_columns _ _ _ Hsame).
  - intros rs1 r rs2 Hrows Hunknown. unfold create_roadmap_from_data. simpl.
    destruct (parse_colors (settings data)) as [e | colors]; simpl; [reflexivity |].
    destruct (timeline_loop colors (timeline data) (left_margin + Inch 1.0) [])
      as [e | [[header x_end] yp]]; simpl; [reflexivity |].
    rewrite (goals_loop_rows_ext _ _ _ (rows data) (rs1 ++ rs2)); [reflexivity |].
    intros goal top Hgoal. unfold draw_goal. rewrite Hrows.
    rewrite filter_drop_row; [reflexivity |].
    intros E. apply Hunknown. rewrite E. now apply in_map.
  - intros colors ws x Hws. now apply timeline_loop_eq.
  - intros colors yp tgw st row shapes st' H.
    destruct (draw_row_inv _ _ _ _ _ _ _ _ H)
      as (h & _ & _ & _ & Hh & _ & _ & _ & Htop).
    exists h. split; assumption.
  - intros colors yp tgw gs1 gs2 top ->. apply goals_loop_app.
Qed.

(** C7, as stated, fails: the template with a column of width zero, with a
    row of height zero, with a repeated goal id, with a row of an unknown
    goal, with two overflow columns, or with the overflow column first, is
    laid out in full. *)
Lemma violations_are_laid_out :
  Forall (fun d => structural_violation d /\ ~ fails d)
    [ zero_width_book; zero_height_book; duplicate_goal_book; unknown_goal_book;
      two_overflow_book; overflow_first_book ].
Proof.
  repeat (apply Forall_cons || apply Forall_nil);
    (split; [| intros [e He]; vm_compute in He; discriminate He]).
  - apply (width_not_positive _ (Build_TimelineRow "2022" 0 "No"));
      [now left | reflexivity].
  - apply (height_not_positive _ (Build_RowsRow 7 "STC5" "FTA7" "Pink" 2 0));
      [now left | reflexivity].
  - apply duplicate_goal_id. simpl. intros Hnd. inversion Hnd as [| x l Hx _].
    apply Hx. now left.
  - apply (unknown_goal _ (Build_RowsRow 7 "STC5" "FTA7" "Pink" 99 0.6));
      [now left | simpl; intuition discriminate].
  - apply several_overflow_columns. simpl. lia.
  - apply (overflow_column_not_last _ []
             (Build_TimelineRow "2029-2053" 1.8 "Yes")
             [Build_TimelineRow "2023" 0.8 "No"]);
      [reflexivity | reflexivity | discriminate].
Qed.

(** ** The merged STC cell *)

(** C1, on the code.  With a row of 0.6 inch labelled STC1 followed by a row
    of 0.4 inch labelled STC2, the FTA cells (at [stc_width]) show the rows at
    tops 1143000 and 1691640 with heights 548640 and 365760; the STC cells
    (at 0, after the slide background) are anchored at the same tops, and
    each has the height of the other row: the cell of a run takes the height
    of the row that follows the run, or of the first row of the goal for the
    last run, times the length of the run. *)
Lemma stc_cell_height_uneven_rows :
  exists shapes,
    create_roadmap_from_data uneven_book = ret shapes /\
    rects_at stc_width shapes = [(1143000, 548640); (1691640, 365760)] /\
    rects_at 0 shapes = [(0, SLIDE_HEIGHT); (1143000, 365760); (1691640, 548640)].
Proof.
  eexists. split; [vm_compute; reflexivity |].
  split; reflexivity.
Qed.

(** * Further properties of the code *)

(** ** [hex_to_rgb] (lines 25-32) *)

Lemma hex_digit_char c d :
  hex_digit c = Some d ->
  is_space c = false /\ Ascii.eqb c "#" = false /\ Ascii.eqb c "+" = false
  /\ Ascii.eqb c "-" = false /\ (0 <=? d) && (d <=? 15) = true.
Proof.
  destruct c as [[] [] [] [] [] [] [] []]; vm_compute; intros H;
    try discriminate H; injection H as <-; repeat split.
Qed.

Lemma int16_unsigned c r :
  is_space c = false -> Ascii.eqb c "+" = false -> Ascii.eqb c "-" = false ->
  int16 (String c r) = hex_unsigned (String c r).
Proof.
  intros Hs Hp Hm. unfold int16. simpl lstrip_space. rewrite Hs.
  destruct c as [[] [] [] [] [] [] [] []]; try reflexivity; discriminate.
Qed.

Lemma int16_two_digits c1 c2 d1 d2 :
  hex_digit c1 = Some d1 -> hex_digit c2 = Some d2 ->
  int16 (String c1 (String c2 "")) = ret (16 * d1 + d2).
Proof.
  intros H1 H2.
  destruct (hex_digit_char _ _ H1) as (Hs & _ & Hp & Hm & _).
  rewrite (int16_unsigned _ _ Hs Hp Hm).
  unfold hex_unsigned. cbn [hex_digits]. rewrite H1, H2.
  unfold ret. do 2 f_equal.
Qed.

Lemma lstrip_hash_hashes n s : lstrip_hash (hashes n s) = lstrip_hash s.
Proof. induction n as [| n IH]; simpl; [reflexivity | exact IH]. Qed.

Lemma byte_in_range d1 d2 :
  (0 <=? d1) && (d1 <=? 15) = true -> (0 <=? d2) && (d2 <=? 15) = true ->
  (0 <=? 16 * d1 + d2) && (16 * d1 + d2 <=? 255) = true.
Proof.
  intros H1 H2.
  apply andb_true_iff in H1, H2. destruct H1 as [A1 B1], H2 as [A2 B2].
  apply Z.leb_le in A1, B1, A2, B2.
  apply andb_true_iff. split; apply Z.leb_le; lia.
Qed.

Lemma substring_0_0 s : substring 0 0 s = "".
Proof. now destruct s. Qed.

(** X1.  Any number of leading hash signs, six hexadecimal digits of either
    case, and anything after them: the colour has the three bytes the digit
    pairs denote. *)
Theorem hex_to_rgb_six_digits n c1 c2 c3 c4 c5 c6 d1 d2 d3 d4 d5 d6 rest :
  hex_digit c1 = Some d1 -> hex_digit c2 = Some d2 ->
  hex_digit c3 = Some d3 -> hex_digit c4 = Some d4 ->
  hex_digit c5 = Some d5 -> hex_digit c6 = Some d6 ->
  hex_to_rgb
    (hashes n
       (String c1 (String c2 (String c3 (String c4 (String c5 (String c6 rest)))))))
  = ret (RGB (16 * d1 + d2) (16 * d3 + d4) (16 * d5 + d6)).
Proof.
  intros H1 H2 H3 H4 H5 H6.
  unfold hex_to_rgb. rewrite lstrip_hash_hashes.
  destruct (hex_digit_char _ _ H1) as (_ & Hh & _ & _ & R1).
  cbn [lstrip_hash]. rewrite Hh. cbn [substring]. rewrite substring_0_0.
  rewrite (int16_two_digits _ _ _ _ H1 H2), (int16_two_digits _ _ _ _ H3 H4),
    (int16_two_digits _ _ _ _ H5 H6).
  cbn [bind ret].
  destruct (hex_digit_char _ _ H2) as (_ & _ & _ & _ & R2).
  destruct (hex_digit_char _ _ H3) as (_ & _ & _ & _ & R3).
  destruct (hex_digit_char _ _ H4) as (_ & _ & _ & _ & R4).
  destruct (hex_digit_char _ _ H5) as (_ & _ & _ & _ & R5).
  destruct (hex_digit_char _ _ H6) as (_ & _ & _ & _ & R6).
  unfold RGBColor_new. cbn [forallb].
  now rewrite (byte_in_range _ _ R1 R2), (byte_in_range _ _ R3 R4),
    (byte_in_range _ _ R5 R6).
Qed.

Lemma hex_to_rgb_six_digits_witness :
  hex_to_rgb (hashes 2 "c8A080ff")
  = ret (RGB (16 * 12 + 8) (16 * 10 + 0) (16 * 8 + 0)).
Proof.
  apply (hex_to_rgb_six_digits 2 "c" "8" "A" "0" "8" "0" 12 8 10 0 8 0 "ff");
    reflexivity.
Defined.

Lemma hex_unsigned_error s e : hex_unsigned s = raise e -> e = ValueError.
Proof.
  unfold hex_unsigned. destruct s as [| c r]; [now intros [= <-] |].
  destruct (hex_digit c); [| now intros [= <-]].
  destruct (hex_digits 0 (String c r)); [discriminate | now intros [= <-]].
Qed.

Lemma int16_error s e : int16 s = raise e -> e = ValueError.
Proof.
  unfold int16. intros H.
  destruct (lstrip_space s) as [| c r]; [now apply hex_unsigned_error in H |].
  destruct c as [[] [] [] [] [] [] [] []];
    try (now apply hex_unsigned_error in H);
    destruct (hex_unsigned r) as [e' | n] eqn:E; simpl in H;
    try discriminate H; injection H as <-; now apply hex_unsigned_error in E.
Qed.

Lemma hex_to_rgb_error s e : hex_to_rgb s = raise e -> e = ValueError.
Proof.
  unfold hex_to_rgb. intros H.
  destruct (int16 (substring 0 2 (lstrip_hash s))) as [e1 | r] eqn:E1; simpl in H;
    [injection H as <-; now apply int16_error in E1 |].
  destruct (int16 (substring 2 2 (lstrip_hash s))) as [e2 | g] eqn:E2; simpl in H;
    [injection H as <-; now apply int16_error in E2 |].
  destruct (int16 (substring 4 2 (lstrip_hash s))) as [e3 | b] eqn:E3; simpl in H;
    [injection H as <-; now apply int16_error in E3 |].
  unfold RGBColor_new in H.
  destruct (forallb _ _); [discriminate H | now injection H as <-].
Qed.

Lemma substring_short n m s :
  (String.length s <= n)%nat -> substring n m s = "".
Proof.
  revert s. induction n as [| n IH]; intros s H.
  - destruct s; [now destruct m | simpl in H; lia].
  - destruct s as [| c s]; [reflexivity |]. simpl in *. apply IH. lia.
Qed.

(** X3.  [hex_to_rgb] raises nothing but [ValueError], and it raises it
    when fewer than five characters are left after the leading hash signs:
    the slice for blue is then empty. *)
Theorem hex_to_rgb_short s :
  (forall e, hex_to_rgb s = raise e -> e = ValueError) /\
  ((String.length (lstrip_hash s) <= 4)%nat -> hex_to_rgb s = raise ValueError).
Proof.
  split; [intros e; apply hex_to_rgb_error |].
  intros Hlen.
  destruct (hex_to_rgb s) as [e | c] eqn:E.
  - now rewrite (hex_to_rgb_error _ _ E).
  - unfold hex_to_rgb in E.
    bind_inv E as r Hr. bind_inv E as g Hg. bind_inv E as b Hb.
    rewrite (substring_short 4 2 _ Hlen) in Hb. discriminate Hb.
Qed.

(** ** The Settings sheet (lines 96-97, 127-138, 161) *)

Lemma settings_get_set_same k v d default :
  settings_get (settings_set k v d) k default = v.
Proof.
  induction d as [| [k' v'] d IH]; simpl.
  - now rewrite String.eqb_refl.
  - destruct (String.eqb k' k) eqn:E; simpl.
    + now rewrite String.eqb_refl.
    + now rewrite E.
Qed.

Lemma settings_get_set_other k k' v d default :
  k <> k' ->
  settings_get (settings_set k v d) k' default = settings_get d k' default.
Proof.
  intros Hk. induction d as [| [k0 v0] d IH]; simpl.
  - apply String.eqb_neq in Hk. now rewrite Hk.
  - destruct (String.eqb k0 k) eqn:E; simpl.
    + apply String.eqb_eq in E. subst k0.
      apply String.eqb_neq in Hk. now rewrite Hk.
    + now rewrite IH.
Qed.

Lemma settings_get_fold items :
  forall acc key default,
    settings_get
      (fold_left (fun d kv => settings_set (fst kv) (snd kv) d) items acc)
      key default
    = match last_value items key with
      | Some v => v
      | None => settings_get acc key default
      end.
Proof.
  unfold last_value.
  induction items as [| [k v] items IH] using rev_ind; intros acc key default.
  - reflexivity.
  - rewrite fold_left_app, rev_app_distr. simpl.
    destruct (String.eqb k key) eqn:E; simpl.
    + apply String.eqb_eq in E. subst k. apply settings_get_set_same.
    + apply String.eqb_neq in E.
      rewrite settings_get_set_other by exact E. apply IH.
Qed.

(** X4.  In the dictionary [load_excel_data] builds from the Settings sheet,
    a key stands for the value of the last row that has it, and a key of no
    row gives the default of the lookup. *)
Theorem load_settings_last_row wb key default :
  settings_get (settings (load_excel_data wb)) key default
  = match last_value (sheet_Settings wb) key with
    | Some v => v
    | None => default
    end.
Proof.
  unfold load_excel_data, dict_zip. simpl. now rewrite settings_get_fold.
Qed.

Lemma settings_get_absent s key default :
  ~ In key (map fst s) -> settings_get s key default = default.
Proof.
  induction s as [| [k v] s IH]; simpl; intros H; [reflexivity |].
  destruct (String.eqb k key) eqn:E.
  - apply String.eqb_eq in E. tauto.
  - apply IH. tauto.
Qed.

(** X5.  Settings that have none of the nine colour keys give the default
    colours, and no exception: every colour key is optional. *)
Theorem parse_colors_defaults s :
  (forall key, In key (map fst color_settings) -> ~ In key (map fst s)) ->
  parse_colors s = ret default_colors.
Proof.
  intros H. unfold parse_colors.
  rewrite !settings_get_absent by (apply H; simpl; tauto).
  reflexivity.
Qed.

Lemma parse_colors_defaults_witness :
  parse_colors [("Title", "Roadmap 2030"); ("Author", "nobody")]
  = ret default_colors.
Proof.
  apply (parse_colors_defaults [("Title", "Roadmap 2030"); ("Author", "nobody")]).
  intros key Hkey. simpl in *. intuition (subst; discriminate).
Defined.

Lemma parse_colors_error s e : parse_colors s = raise e -> e = ValueError.
Proof.
  unfold parse_colors. intros H.
  repeat match type of H with
    | bind (hex_to_rgb ?x) _ = _ =>
        let E := fresh "E" in
        destruct (hex_to_rgb x) as [? | ?] eqn:E; simpl in H;
        [injection H as <-; now apply hex_to_rgb_error in E | clear E]
    end.
  discriminate H.
Qed.

Lemma parse_colors_inv s colors key default :
  parse_colors s = ret colors ->
  In (key, default) color_settings ->
  exists c, hex_to_rgb (settings_get s key default) = ret c.
Proof.
  unfold parse_colors. intros H Hin.
  repeat match type of H with
    | bind (hex_to_rgb ?x) _ = _ =>
        let E := fresh "E" in
        destruct (hex_to_rgb x) as [? | ?] eqn:E; simpl in H; [discriminate H |]
    end.
  simpl in Hin.
  repeat (destruct Hin as [[= <- <-] | Hin]; [eexists; eassumption |]).
  destruct Hin.
Qed.

(** X6.  When the value of one of the nine colour settings (or its default,
    the key being absent) is no colour, the layout raises [ValueError],
    whatever the other sheets hold. *)
Theorem malformed_setting_color data key default e :
  In (key, default) color_settings ->
  hex_to_rgb (settings_get (settings data) key default) = raise e ->
  create_roadmap_from_data data = raise ValueError.
Proof.
  intros Hin Hbad. unfold create_roadmap_from_data.
  destruct (parse_colors (settings data)) as [e' | colors] eqn:Hp; simpl.
  - now rewrite (parse_colors_error _ _ Hp).
  - destruct (parse_colors_inv _ _ _ _ Hp Hin) as [c Hc].
    rewrite Hc in Hbad. discriminate Hbad.
Qed.

Lemma malformed_setting_color_witness :
  create_roadmap_from_data
    (load_excel_data
       (Build_Workbook [("Navy Color", "navy")] (timeline template)
          (goals template) (rows template) (milestones template)
          (usecases template)))
  = raise ValueError.
Proof.
  apply (malformed_setting_color _ "Navy Color" "1A1A4E" ValueError).
  - simpl. tauto.
  - reflexivity.
Defined.

(** ** The slide as a whole *)

Lemma create_roadmap_shapes data shapes :
  create_roadmap_from_data data = ret shapes ->
  exists colors header x_end yp blocks top captions indicators,
    parse_colors (settings data) = ret colors /\
    timeline_loop colors (timeline data) (left_margin + Inch 1.0) []
    = ret (header, x_end, yp) /\
    goals_loop colors yp (x_end - left_margin - Inch 1.0) (rows data)
      (milestones data) (goals data) (Inch 0.95) = ret (blocks, top) /\
    usecases_loop (Inch 0.3 + Inch 1.6 + Inch 1.7) (top + Inch 0.1 + Inch 0.5) 0
      (usecases data) = ret indicators /\
    shapes
    = slide_head colors (settings_get (settings data) "Title" "Roadmap")
      ++ header ++ blocks ++ term_arrows colors (top + Inch 0.1)
      ++ legend colors (Inch 0.3) (top + Inch 0.1 + Inch 0.5)
      ++ add_text_box (Inch 0.3 + Inch 1.6)
           (PyInt (top + Inch 0.1 + Inch 0.5 + Inch 0.2)) (Inch 1.5) (Inch 0.15)
           "Use Cases:" 7 true None None LEFT false
         :: captions ++ indicators.
Proof.
  unfold create_roadmap_from_data. intros H.
  bind_inv H as colors Hcolors. bind_inv H as [[header x_end] yp] Htl.
  bind_inv H as [blocks top] Hgoals. bind_inv H as captions Hcap.
  bind_inv H as indicators Hind.
  apply ret_inj in H. subst shapes.
  exists colors, header, x_end, yp, blocks, top, captions, indicators.
  repeat split; assumption.
Qed.

Lemma Forall2_In_l {A B} (P : A -> B -> Prop) l l' a :
  Forall2 P l l' -> In a l -> exists b, In b l' /\ P a b.
Proof.
  induction 1 as [| x y l l' Hxy _ IH]; intros Hin; [destruct Hin |].
  destruct Hin as [-> | Hin].
  - exists y. split; [now left | exact Hxy].
  - destruct (IH Hin) as (b & Hb & Hab). exists b. split; [now right | exact Hab].
Qed.

Lemma dict_get_In k d :
  In k (map fst d) -> exists v, dict_get k d = Some v.
Proof.
  induction d as [| [k0 v0] d IH]; simpl; intros H; [destruct H |].
  destruct (String.eqb k0 k) eqn:E; [now exists v0 |].
  apply String.eqb_neq in E. destruct H as [H | H]; [congruence | now apply IH].
Qed.

(** What a layout that returns has drawn: every row under a listed goal, and
    every milestone of such a row. *)
Lemma drawn_row_inv data shapes row :
  create_roadmap_from_data data = ret shapes ->
  drawn_row data row ->
  exists colors header x_end yp st sh st',
    timeline_loop colors (timeline data) (left_margin + Inch 1.0) []
    = ret (header, x_end, yp) /\
    draw_row colors yp (x_end - left_margin - Inch 1.0) (milestones data) st row
    = ret (sh, st').
Proof.
  intros Hrun (Hrow & goal & Hgoal & Hrg).
  destruct (create_roadmap_inv _ _ Hrun)
    as (colors & header & x_end & yp & blocks & top & _ & Htl & Hgoals & _ & _).
  destruct (goals_loop_In _ _ _ _ _ _ _ _ _ _ Hgoals Hgoal)
    as (top_g & sh_g & top_g' & Hg & _).
  destruct (draw_goal_inv _ _ _ _ _ _ _ _ _ Hg) as (sh_rows & st & final & Hrows & _ & _).
  assert (Hin : In row (filter (fun r => r_GoalID r =? g_GoalID goal) (rows data))).
  { apply filter_In. split; [exact Hrow | now apply Z.eqb_eq]. }
  destruct (rows_loop_In _ _ _ _ _ _ _ _ _ Hrows Hin) as (st_r & sh_r & st_r' & Hdraw & _).
  now exists colors, header, x_end, yp, st_r, sh_r, st_r'.
Qed.

Lemma drawn_milestone_inv data shapes row ms :
  create_roadmap_from_data data = ret shapes ->
  drawn_row data row ->
  In ms (milestones data) ->
  m_RowID ms = r_RowID row ->
  exists colors header x_end yp top sh,
    timeline_loop colors (timeline data) (left_margin + Inch 1.0) []
    = ret (header, x_end, yp) /\
    draw_milestone colors yp top ms = ret sh.
Proof.
  intros Hrun Hrow Hms Hmr.
  destruct (drawn_row_inv _ _ _ Hrun Hrow)
    as (colors & header & x_end & yp & st & sh & st' & Htl & Hdraw).
  destruct (draw_row_inv _ _ _ _ _ _ _ _ Hdraw)
    as (h & stc_shapes & fta_top & ms_shapes & _ & _ & Hloop & _ & _).
  assert (Hin : In ms (filter (fun m => m_RowID m =? r_RowID row) (milestones data))).
  { apply filter_In. split; [exact Hms | now apply Z.eqb_eq]. }
  destruct (milestones_loop_In _ _ _ _ _ _ Hloop Hin) as (sh_m & Hdm & _).
  now exists colors, header, x_end, yp, (current_top st), sh_m.
Qed.

(** ** Empty sheets *)

(** X7.  With an empty Goals sheet nothing of the Rows and Milestones sheets
    is drawn or even converted: the layout is the same for any other rows and
    milestones. *)
Theorem no_goals_no_rows data rs mss :
  goals data = [] ->
  create_roadmap_from_data (with_rows (with_milestones data mss) rs)
  = create_roadmap_from_data data.
Proof.
  intros Hgoals. unfold create_roadmap_from_data. simpl.
  destruct (parse_colors (settings data)) as [e | colors]; simpl; [reflexivity |].
  destruct (timeline_loop colors (timeline data) (left_margin + Inch 1.0) [])
    as [e | [[header x_end] yp]]; simpl; [reflexivity |].
  now rewrite Hgoals.
Qed.

Lemma no_goals_no_rows_witness :
  create_roadmap_from_data
    (with_rows (with_milestones (with_goals template []) [])
       [Build_RowsRow 1 "STC1" "FTA1" "Pink" 1 nan])
  = create_roadmap_from_data (with_goals template []).
Proof.
  apply (no_goals_no_rows (with_goals template [])). reflexivity.
Defined.

(** X8.  The block of a goal that no row refers to is its title alone: the
    cursor moves down by [Inches(0.3)], no STC cell is drawn and nothing
    raises. *)
Theorem goal_without_rows colors yp tgw rows mss top goal :
  (forall r, In r rows -> r_GoalID r <> g_GoalID goal) ->
  draw_goal colors yp tgw rows mss top goal
  = ret ([goal_title top goal], top + Inch 0.3).
Proof.
  intros H.
  assert (Hf : filter (fun r => r_GoalID r =? g_GoalID goal) rows = []).
  { induction rows as [| r rows IH]; [reflexivity |]. simpl.
    destruct (r_GoalID r =? g_GoalID goal) eqn:E.
    - apply Z.eqb_eq in E. exfalso. apply (H r); [now left | exact E].
    - apply IH. intros r' Hr'. apply H. now right. }
  unfold draw_goal. rewrite Hf. reflexivity.
Qed.

Lemma goal_without_rows_witness :
  draw_goal default_colors template_positions 6035040 (rows template)
    (milestones template) (Inch 0.95) (Build_GoalRow 3 "Overarching goal 3")
  = ret ([goal_title (Inch 0.95) (Build_GoalRow 3 "Overarching goal 3")],
         Inch 0.95 + Inch 0.3).
Proof.
  apply (goal_without_rows default_colors template_positions 6035040
           (rows template) (milestones template) (Inch 0.95)
           (Build_GoalRow 3 "Overarching goal 3")).
  intros r Hr. simpl in Hr.
  repeat (destruct Hr as [<- | Hr]; [discriminate |]). destruct Hr.
Defined.

Lemma milestone_x_None yp year :
  milestone_x yp (str_int year) = ret None ->
  dict_get (str_int year) yp = None /\ year < 2029.
Proof.
  unfold milestone_x.
  destruct (dict_get (str_int year) yp) as [x |]; [discriminate |].
  rewrite int_str_str_int. simpl.
  destruct (2029 <=? year) eqn:E.
  - destruct (list_last (dict_values yp)); discriminate.
  - intros _. apply Z.leb_gt in E. split; [reflexivity | exact E].
Qed.

(** X9.  With an empty Timeline sheet a milestone of 2029 or later raises
    [IndexError] where it is placed, so a workbook that has one on a drawn
    row has no layout. *)
Theorem empty_timeline_late_milestone data row ms :
  timeline data = [] ->
  drawn_row data row ->
  In ms (milestones data) ->
  m_RowID ms = r_RowID row ->
  2029 <= m_Year ms ->
  (forall colors top, draw_milestone colors [] top ms = raise IndexError)
  /\ exists e, create_roadmap_from_data data = raise e.
Proof.
  intros Htl Hrow Hms Hmr Hyear.
  assert (Hraise : forall colors top, draw_milestone colors [] top ms = raise IndexError).
  { intros colors top. unfold draw_milestone.
    rewrite milestone_x_not_key by reflexivity.
    apply Z.leb_le in Hyear. now rewrite Hyear. }
  split; [exact Hraise |].
  destruct (create_roadmap_from_data data) as [e | shapes] eqn:Hrun; [now exists e |].
  destruct (drawn_milestone_inv _ _ _ _ Hrun Hrow Hms Hmr)
    as (colors & header & x_end & yp & top & sh & Hloop & Hdm).
  rewrite Htl in Hloop. apply ret_inj in Hloop. injection Hloop as _ _ <-.
  rewrite Hraise in Hdm. discriminate Hdm.
Qed.

Lemma empty_timeline_late_milestone_witness :
  (forall colors top,
      draw_milestone colors [] top
        (Build_MilestoneRow 2 2029 0.25 "Critical Goal Text" "Yes")
      = raise IndexError)
  /\ exists e, create_roadmap_from_data (with_timeline template []) = raise e.
Proof.
  apply (empty_timeline_late_milestone (with_timeline template [])
           (Build_RowsRow 2 "STC1" "FTA2" "Pink" 1 0.6)).
  - reflexivity.
  - split; [simpl; tauto |].
    exists (Build_GoalRow 1 "Overarching goal 1"). split; [simpl; tauto | reflexivity].
  - simpl. tauto.
  - reflexivity.
  - simpl. lia.
Defined.

(** ** Cells that do not convert *)

Lemma usecases_loop_In left top ucs :
  forall i shapes uc,
    usecases_loop left top i ucs = ret shapes ->
    In uc ucs ->
    exists c, hex_to_rgb (uc_Color uc) = ret c.
Proof.
  induction ucs as [| u ucs IH]; intros i shapes uc H Hin; [destruct Hin |].
  simpl in H. bind_inv H as c Hc. bind_inv H as dy Hdy. bind_inv H as dy' Hdy'.
  bind_inv H as rest Hrest.
  destruct Hin as [-> | Hin]; [now exists c | exact (IH _ _ _ Hrest Hin)].
Qed.

(** X10.  A workbook with a cell the layout cannot convert (an empty or
    infinite timeline width, height of a drawn row or vertical offset of a
    milestone it would place, or a use-case colour that is no colour) has no
    layout: the function raises and returns no slide. *)
Theorem bad_cell_no_layout data :
  bad_cell data -> exists e, create_roadmap_from_data data = raise e.
Proof.
  intros Hbad.
  destruct (create_roadmap_from_data data) as [e | shapes] eqn:Hrun; [now exists e |].
  exfalso. destruct Hbad as [e err He Herr | row err Hrow Herr
                            | row ms err Hrow Hms Hmr Hyear Herr | uc err Huc Herr].
  - destruct (create_roadmap_inv _ _ Hrun)
      as (colors & header & x_end & yp & blocks & top & _ & Htl & _).
    destruct (timeline_loop_inv _ _ _ _ _ _ _ Htl) as (ws & Hws & _).
    destruct (Forall2_In_l _ _ _ _ Hws He) as (w & _ & Hw).
    rewrite Hw in Herr. discriminate Herr.
  - destruct (drawn_row_inv _ _ _ Hrun Hrow)
      as (colors & header & x_end & yp & st & sh & st' & _ & Hdraw).
    destruct (draw_row_inv _ _ _ _ _ _ _ _ Hdraw) as (h & _ & _ & _ & Hh & _).
    rewrite Hh in Herr. discriminate Herr.
  - destruct (drawn_milestone_inv _ _ _ _ Hrun Hrow Hms Hmr)
      as (colors & header & x_end & yp & top & sh & Htl & Hdm).
    unfold draw_milestone in Hdm.
    destruct (milestone_x yp (str_int (m_Year ms))) as [e | [x |]] eqn:Hx;
      simpl in Hdm; [discriminate Hdm | |].
    + rewrite Herr in Hdm. discriminate Hdm.
    + destruct (milestone_x_None _ _ Hx) as [Hnone Hlt].
      destruct Hyear as [Hkey | Hge]; [| lia].
      destruct (timeline_loop_inv _ _ _ _ _ _ _ Htl) as (ws & Hws & _ & _ & ->).
      assert (Hk : In (str_int (m_Year ms))
                     (map fst (record_columns (left_margin + Inch 1.0)
                                 (timeline data) ws []))).
      { apply (record_columns_keys _ _ Hws). now left. }
      destruct (dict_get_In _ _ Hk) as [v Hv]. congruence.
  - destruct (create_roadmap_shapes _ _ Hrun)
      as (colors & header & x_end & yp & blocks & top & captions & indicators
          & _ & _ & _ & Hloop & _).
    destruct (usecases_loop_In _ _ _ _ _ _ Hloop Huc) as [c Hc].
    rewrite Hc in Herr. discriminate Herr.
Qed.

Lemma bad_cell_no_layout_witness :
  exists e,
    create_roadmap_from_data
      (with_rows template (Build_RowsRow 7 "STC4" "FTA7" "Pink" 2 nan :: rows template))
    = raise e.
Proof.
  apply bad_cell_no_layout.
  apply (bad_height _ (Build_RowsRow 7 "STC4" "FTA7" "Pink" 2 nan) ValueError).
  - split; [simpl; tauto |].
    exists (Build_GoalRow 2 "Overarching goal 2"). split; [simpl; tauto | reflexivity].
  - reflexivity.
Defined.

(** ** Below the blocks *)

Lemma goals_loop_bottom colors yp tgw rows mss goals :
  forall top shapes top',
    goals_loop colors yp tgw rows mss goals top = ret (shapes, top') ->
    exists hss,
      Forall2
        (fun goal hs =>
           heights_of (filter (fun r => r_GoalID r =? g_GoalID goal) rows) hs)
        goals hss /\
      top' = top + sum (map (fun hs => Inch 0.3 + sum hs) hss).
Proof.
  induction goals as [| goal goals IH]; intros top shapes top' H; simpl in H.
  - apply ret_inj in H. injection H as <- <-.
    exists []. split; [constructor | simpl; lia].
  - bind_inv H as [sh top1] Hg. bind_inv H as [rest top2] Hrest.
    apply ret_inj in H. injection H as <- <-.
    destruct (draw_goal_inv _ _ _ _ _ _ _ _ _ Hg) as (sh_rows & st & final & Hrows & _ & ->).
    destruct (rows_loop_stacked _ _ _ _ _ _ _ _ Hrows) as (hs & Hhs & _ & Hend).
    destruct (IH _ _ _ Hrest) as (hss & Hhss & ->).
    exists (hs :: hss). split; [now constructor |].
    rewrite Hend. simpl. lia.
Qed.



(** ** The UseCases sheet *)

Lemma usecases_loop_same left top ucs ucs' :
  Forall2 same_usecase ucs ucs' ->
  forall i, usecases_loop left top i ucs = usecases_loop left top i ucs'.
Proof.
  induction 1 as [| a b ucs ucs' [Hid Hc] _ IH]; intros i; simpl; [reflexivity |].
  now rewrite Hid, Hc, IH.
Qed.

(** X12.  The Description column of the UseCases sheet is never read: two
    workbooks whose use cases agree on id and colour have the same layout,
    shape for shape or exception for exception. *)
Theorem usecase_description_not_read data ucs' :
  Forall2 same_usecase (usecases data) ucs' ->
  create_roadmap_from_data (with_usecases data ucs') = create_roadmap_from_data data.
Proof.
  intros Hsame. unfold create_roadmap_from_data. simpl.
  destruct (parse_colors (settings data)) as [e | colors]; simpl; [reflexivity |].
  destruct (timeline_loop colors (timeline data) (left_margin + Inch 1.0) [])
    as [e | [[header x_end] yp]]; simpl; [reflexivity |].
  destruct (goals_loop colors yp (x_end - left_margin - Inch 1.0) (rows data)
              (milestones data) (goals data) (Inch 0.95))
    as [e | [blocks top]]; simpl; [reflexivity |].
  now rewrite (usecases_loop_same _ _ _ _ Hsame).
Qed.

Lemma usecase_description_not_read_witness :
  create_roadmap_from_data
    (with_usecases template
       (map (fun uc => Build_UseCaseRow (uc_UseCaseID uc) "" (uc_Color uc))
          (usecases template)))
  = create_roadmap_from_data template.
Proof.
  apply (usecase_description_not_read template).
  repeat constructor.
Defined.

(** ** Runs of STC labels (lines 224-253, 302-309) *)

Lemma merge_run_head l h rs :
  exists hs rs', merge_run l [h] rs = (l, h :: hs) :: rs'.
Proof.
  destruct rs as [| [l' hs'] rs]; simpl; [now exists [], [] |].
  destruct (String.eqb l l'); eexists _, _; reflexivity.
Qed.

Lemma merge_run_merge c pend h rs :
  merge_run c pend (merge_run c [h] rs) = merge_run c (pend ++ [h]) rs.
Proof.
  destruct rs as [| [l' hs'] rs]; simpl.
  - now rewrite String.eqb_refl.
  - destruct (String.eqb c l') eqn:E; simpl.
    + now rewrite String.eqb_refl, <- app_assoc.
    + now rewrite String.eqb_refl.
Qed.

(** The runs are the rows, in order, cut where the label changes. *)
Lemma runs_sound rows :
  flat_map run_rows (runs rows) = rows
  /\ neighbours_differ (runs rows)
  /\ Forall (fun r => snd r <> []) (runs rows).
Proof.
  induction rows as [| [l h] rows (IHc & IHn & IHe)]; simpl; [repeat split; constructor |].
  destruct (runs rows) as [| [l' hs'] rs]; simpl in *.
  - subst rows. repeat split. repeat constructor. discriminate.
  - destruct (String.eqb l l') eqn:E; simpl.
    + apply String.eqb_eq in E. subst l'.
      split; [now rewrite <- IHc |]. split.
      * destruct rs; [exact I | exact IHn].
      * constructor; [discriminate | now inversion IHe].
    + apply String.eqb_neq in E.
      split; [now rewrite <- IHc |]. split.
      * split; assumption.
      * constructor; [discriminate | assumption].
Qed.

Lemma stc_cells_app a b : stc_cells (a ++ b) = stc_cells a ++ stc_cells b.
Proof.
  induction a as [| s a IH]; [reflexivity |].
  destruct s as [l t w h fill line | |]; simpl; try exact IH.
  destruct (is_stc_cell l w); simpl; now rewrite IH.
Qed.

Lemma stc_cells_grid_lines top h yp :
  stc_cells (map (grid_line top h) yp) = [].
Proof.
  induction yp as [| entry yp IH]; [reflexivity |].
  simpl. unfold is_stc_cell.
  replace (Pt 1 =? stc_width) with false by reflexivity.
  now rewrite andb_false_r.
Qed.

Lemma stc_cells_row_band colors yp tgw top h row fta_top :
  stc_cells (row_band colors yp tgw top h row fta_top) = [].
Proof.
  unfold row_band. rewrite stc_cells_app.
  pose proof (stc_cells_grid_lines top h yp) as Hlines.
  unfold grid_line in Hlines. rewrite Hlines.
  cbn [stc_cells app]. unfold is_stc_cell.
  replace (stc_width =? 0) with false by reflexivity.
  replace (left_margin =? 0) with false by reflexivity.
  reflexivity.
Qed.

Lemma stc_cells_milestone colors yp top ms sh :
  draw_milestone colors yp top ms = ret sh -> stc_cells sh = [].
Proof.
  unfold draw_milestone. intros H.
  bind_inv H as found Hx. destruct found as [x |].
  - bind_inv H as dy Hdy. apply ret_inj in H. now subst sh.
  - apply ret_inj in H. now subst sh.
Qed.

Lemma stc_cells_milestones colors yp top mss :
  forall sh, milestones_loop colors yp top mss = ret sh -> stc_cells sh = [].
Proof.
  induction mss as [| ms mss IH]; intros sh H; simpl in H.
  - apply ret_inj in H. now subst sh.
  - bind_inv H as s Hs. bind_inv H as rest Hrest. apply ret_inj in H. subst sh.
    now rewrite stc_cells_app, (stc_cells_milestone _ _ _ _ _ Hs), (IH _ Hrest).
Qed.

Lemma stc_cells_stc_cell colors start h label sh :
  stc_cell colors start h label = ret sh -> stc_cells sh = [(start, h)].
Proof.
  unfold stc_cell. intros H. bind_inv H as t Ht. apply ret_inj in H. now subst sh.
Qed.

(** What one row does to the run in progress. *)
Lemma draw_row_run colors yp tgw mss st row shapes st' :
  draw_row colors yp tgw mss st row = ret (shapes, st') ->
  exists h,
    Inches (r_RowHeight row) = ret h /\
    if stc_differs (r_STCLabel row) (current_stc st) then
      st' = {| current_top := current_top st + h;
               current_stc := Some (r_STCLabel row);
               stc_start_top := current_top st; stc_row_count := 1 |}
      /\ stc_cells shapes
         = match current_stc st with
           | Some _ =>
               if 0 <? stc_row_count st
               then [(stc_start_top st, h * stc_row_count st)] else []
           | None => []
           end
    else
      st' = {| current_top := current_top st + h; current_stc := current_stc st;
               stc_start_top := stc_start_top st;
               stc_row_count := stc_row_count st + 1 |}
      /\ stc_cells shapes = [].
Proof.
  unfold draw_row. intros H.
  bind_inv H as h Hh. bind_inv H as [stc_shapes st1] Hstc.
  bind_inv H as fta_top Hfta. bind_inv H as ms_shapes Hms.
  apply ret_inj in H. injection H as <- <-.
  exists h. split; [exact Hh |].
  assert (Hrest : forall cells,
             stc_cells stc_shapes = cells ->
             stc_cells
               (stc_shapes
                ++ [add_rectangle stc_width (current_top st) fta_width h
                      (Some (navy colors)) None;
                    add_text_box (stc_width + Inch 0.25) fta_top (Inch 0.5)
                      (Inch 0.25) (r_FTALabel row) 11 true (Some white) None
                      CENTER false]
                ++ add_rectangle left_margin (current_top st)
                     (tgw + Inch 1.0) h
                     (Some (bg_color_map_get colors (lower (r_BackgroundColor row))))
                     None
                   :: map (grid_line (current_top st) h) yp ++ ms_shapes)
             = cells).
  { intros cells Hcells.
    change (stc_cells
              (stc_shapes
               ++ row_band colors yp tgw (current_top st) h row fta_top
               ++ ms_shapes) = cells).
    rewrite !stc_cells_app, stc_cells_row_band, Hcells,
      (stc_cells_milestones _ _ _ _ _ Hms).
    now rewrite !app_nil_r. }
  destruct (stc_differs (r_STCLabel row) (current_stc st)).
  - bind_inv Hstc as previous Hprev. apply ret_inj in Hstc. injection Hstc as <- <-.
    split; [reflexivity |]. apply Hrest.
    unfold close_stc in Hprev.
    destruct (current_stc st) as [label |]; [| apply ret_inj in Hprev; now subst].
    destruct (0 <? stc_row_count st); [| apply ret_inj in Hprev; now subst].
    bind_inv Hprev as h' Hh'. apply ret_inj in Hh'. subst h'.
    exact (stc_cells_stc_cell _ _ _ _ _ Hprev).
  - apply ret_inj in Hstc. injection Hstc as <- <-.
    split; [reflexivity |]. now apply Hrest.
Qed.

Lemma sum_app a b : sum (a ++ b) = sum a + sum b.
Proof. induction a as [| x a IH]; simpl; [reflexivity | rewrite IH; lia]. Qed.

Lemma rows_loop_runs colors yp tgw mss rows :
  forall st shapes st' c pend,
    rows_loop colors yp tgw mss rows st = ret (shapes, st') ->
    current_stc st = Some c ->
    pend <> [] ->
    stc_row_count st = Z.of_nat (List.length pend) ->
    current_top st = stc_start_top st + sum pend ->
    exists hs,
      heights_of rows hs /\
      (exists label, current_stc st' = Some label) /\
      0 < stc_row_count st' /\
      forall h_first,
        stc_cells shapes ++ [(stc_start_top st', h_first * stc_row_count st')]
        = run_cells (stc_start_top st)
            (merge_run c pend (runs (labelled rows hs))) h_first.
Proof.
  induction rows as [| row rows IH];
    intros st shapes st' c pend H Hc Hpend Hcount Htop; simpl in H.
  - apply ret_inj in H. injection H as <- <-.
    assert (Hpos : 0 < Z.of_nat (List.length pend)).
    { destruct pend; [congruence | simpl; lia]. }
    exists []. split; [constructor |]. split; [now exists c |].
    split; [now rewrite Hcount |].
    intros h_first. simpl. now rewrite Hcount.
  - bind_inv H as [sh st1] Hrow. bind_inv H as [rest st2] Hrest.
    apply ret_inj in H. injection H as <- <-.
    destruct (draw_row_run _ _ _ _ _ _ _ _ Hrow) as (h & Hh & Hrun).
    rewrite Hc in Hrun. simpl in Hrun.
    destruct (String.eqb (r_STCLabel row) c) eqn:E; simpl in Hrun;
      destruct Hrun as [-> Hcells].
    + apply String.eqb_eq in E.
      destruct (IH _ _ _ c (pend ++ [h]) Hrest) as (hs & Hhs & Hlabel & Hpos & Heq).
      * reflexivity.
      * now destruct pend.
      * simpl. rewrite Hcount, length_app. simpl. lia.
      * simpl. rewrite sum_app. simpl. lia.
      * exists (h :: hs). split; [now constructor |].
        split; [exact Hlabel |]. split; [exact Hpos |].
        intros h_first. rewrite stc_cells_app, Hcells. simpl app.
        rewrite Heq. simpl. unfold labelled. simpl. fold (labelled rows hs).
        rewrite E. now rewrite merge_run_merge.
    + destruct (IH _ _ _ (r_STCLabel row) [h] Hrest) as (hs & Hhs & Hlabel & Hpos & Heq).
      * reflexivity.
      * discriminate.
      * reflexivity.
      * simpl. lia.
      * exists (h :: hs). split; [now constructor |].
        split; [exact Hlabel |]. split; [exact Hpos |].
        intros h_first. rewrite stc_cells_app, Hcells.
        assert (Hlt : (0 <? stc_row_count st) = true).
        { apply Z.ltb_lt. rewrite Hcount. destruct pend; [congruence | simpl; lia]. }
        rewrite Hlt. rewrite <- app_assoc, Heq. simpl.
        unfold labelled. simpl. fold (labelled rows hs).
        destruct (merge_run_head (r_STCLabel row) h (runs (labelled rows hs)))
          as (x & y & Hm).
        rewrite Hm. simpl.
        assert (Hne : String.eqb c (r_STCLabel row) = false).
        { rewrite String.eqb_sym. exact E. }
        rewrite Hne. simpl. rewrite Hcount, Htop. reflexivity.
Qed.

(** X13.  The merged STC cells of a goal block, whatever the row heights:
    one cell for every maximal run of consecutive rows with the same label,
    anchored at the top of the run; its height is the number of rows of the
    run times the height of the row that follows the run, or times the
    height of the first row of the goal for the last run. *)
Theorem stc_cells_of_goal colors yp tgw rows mss top goal shapes top' :
  draw_goal colors yp tgw rows mss top goal = ret (shapes, top') ->
  exists hs,
    heights_of (filter (fun r => r_GoalID r =? g_GoalID goal) rows) hs /\
    stc_cells shapes
    = run_cells (top + Inch 0.3)
        (runs (labelled (filter (fun r => r_GoalID r =? g_GoalID goal) rows) hs))
        (hd 0 hs).
Proof.
  unfold draw_goal. intros H.
  bind_inv H as [sh st] Hrows. bind_inv H as final Hfinal.
  apply ret_inj in H. injection H as <- <-.
  destruct (filter (fun r => r_GoalID r =? g_GoalID goal) rows) as [| row goal_rows].
  - simpl in Hrows. apply ret_inj in Hrows. injection Hrows as <- <-.
    simpl in Hfinal. apply ret_inj in Hfinal. subst final.
    exists []. split; [constructor | reflexivity].
  - simpl in Hrows. bind_inv Hrows as [sh1 st1] Hrow.
    bind_inv Hrows as [rest st2] Hrest.
    apply ret_inj in Hrows. injection Hrows as <- <-.
    destruct (draw_row_run _ _ _ _ _ _ _ _ Hrow) as (h & Hh & Hrun).
    simpl in Hrun. destruct Hrun as [-> Hcells].
    destruct (rows_loop_runs _ _ _ _ _ _ _ _ (r_STCLabel row) [h] Hrest)
      as (hs & Hhs & [label Hlabel] & Hpos & Heq);
      [reflexivity | discriminate | reflexivity | simpl; lia |].
    exists (h :: hs). split; [now constructor |].
    unfold close_stc in Hfinal. rewrite Hlabel in Hfinal.
    apply Z.ltb_lt in Hpos. rewrite Hpos in Hfinal.
    bind_inv Hfinal as height Hheight.
    simpl in Hheight. rewrite Hh in Hheight. simpl in Hheight.
    apply ret_inj in Hheight. subst height.
    cbn [stc_cells add_text_box].
    rewrite !stc_cells_app, Hcells, (stc_cells_stc_cell _ _ _ _ _ Hfinal).
    simpl app. rewrite (Heq h). reflexivity.
Qed.

Lemma stc_cells_of_goal_witness :
  exists hs,
    heights_of (filter (fun r => r_GoalID r =? 1) (rows uneven_book)) hs /\
    stc_cells (fst uneven_goal_1)
    = run_cells (Inch 0.95 + Inch 0.3)
        (runs (labelled (filter (fun r => r_GoalID r =? 1) (rows uneven_book)) hs))
        (hd 0 hs).
Proof.
  apply (stc_cells_of_goal default_colors template_positions 6035040
           (rows uneven_book) (milestones template) (Inch 0.95)
           (Build_GoalRow 1 "Overarching goal 1") (fst uneven_goal_1)
           (snd uneven_goal_1)).
  vm_compute. reflexivity.
Defined.

Lemma sum_uniform h hs :
  Forall (eq h) hs -> sum hs = h * Z.of_nat (List.length hs).
Proof.
  induction 1 as [| x hs <- _ IH]; [simpl; lia |].
  cbn [sum fold_right List.length]. fold (sum hs). rewrite IH. lia.
Qed.

Lemma runs_uniform h rows :
  Forall (fun p => h = snd p) rows ->
  Forall (fun r => Forall (eq h) (snd r)) (runs rows).
Proof.
  induction 1 as [| [l x] rows Hx _ IH]; [constructor |].
  simpl in *. subst x.
  destruct (runs rows) as [| [l' hs'] rs]; simpl.
  - repeat constructor.
  - inversion IH as [| ? ? Hhs' Hrs]; subst.
    destruct (String.eqb l l'); repeat constructor; assumption.
Qed.

Lemma run_cells_uniform h rs :
  Forall (fun r => Forall (eq h) (snd r)) rs ->
  forall top, run_cells top rs h = span_cells top rs.
Proof.
  induction 1 as [| [l hs] rs Hhs Hrs IH]; intros top; [reflexivity |].
  cbn [run_cells span_cells]. rewrite IH. f_equal. f_equal.
  simpl in Hhs. rewrite (sum_uniform _ _ Hhs). f_equal.
  destruct Hrs as [| [l' [| h' hs']] rs Hh' _]; try reflexivity.
  simpl in Hh'. now inversion Hh'.
Qed.

Lemma heights_uniform h rows hs :
  heights_of rows hs ->
  (forall r, In r rows -> Inches (r_RowHeight r) = ret h) ->
  Forall (eq h) hs.
Proof.
  induction 1 as [| r x rows hs Hx _ IH]; intros Hall; [constructor |].
  constructor.
  - rewrite (Hall r) in Hx by now left. now apply ret_inj in Hx.
  - apply IH. intros r' Hr'. apply Hall. now right.
Qed.

Lemma labelled_uniform h rows hs :
  Forall (eq h) hs -> Forall (fun p => h = snd p) (labelled rows hs).
Proof.
  intros H. revert rows. induction H as [| x hs Hx _ IH]; intros [| r rows];
    try constructor; [exact Hx | apply IH].
Qed.

(** X14.  When all rows of a goal have the same height, every maximal run of
    consecutive rows with the same STC label has exactly one merged cell, at
    the top of the run, whose height is the sum of the heights of the rows
    of the run. *)
Theorem stc_cells_span_uniform_rows colors yp tgw rows mss top goal shapes top' h :
  draw_goal colors yp tgw rows mss top goal = ret (shapes, top') ->
  (forall r, In r (filter (fun r => r_GoalID r =? g_GoalID goal) rows) ->
             Inches (r_RowHeight r) = ret h) ->
  exists hs,
    heights_of (filter (fun r => r_GoalID r =? g_GoalID goal) rows) hs /\
    stc_cells shapes
    = span_cells (top + Inch 0.3)
        (runs (labelled (filter (fun r => r_GoalID r =? g_GoalID goal) rows) hs)).
Proof.
  intros H Hall.
  destruct (filter (fun r => r_GoalID r =? g_GoalID goal) rows) as [| row goal_rows] eqn:Hf.
  - unfold draw_goal in H. rewrite Hf in H. simpl in H.
    apply ret_inj in H. injection H as <- <-.
    exists []. split; [constructor | reflexivity].
  - unfold draw_goal in H.
    bind_inv H as [sh st] Hrows. bind_inv H as final Hfinal.
    apply ret_inj in H. injection H as <- <-.
    rewrite Hf in Hrows, Hfinal.
    simpl in Hrows. bind_inv Hrows as [sh1 st1] Hrow.
    bind_inv Hrows as [rest st2] Hrest.
    apply ret_inj in Hrows. injection Hrows as <- <-.
    destruct (draw_row_run _ _ _ _ _ _ _ _ Hrow) as (h1 & Hh & Hrun).
    simpl in Hrun. destruct Hrun as [-> Hcells].
    destruct (rows_loop_runs _ _ _ _ _ _ _ _ (r_STCLabel row) [h1] Hrest)
      as (hs & Hhs & [label Hlabel] & Hpos & Heq);
      [reflexivity | discriminate | reflexivity | simpl; lia |].
    assert (Hheights : heights_of (row :: goal_rows) (h1 :: hs)) by now constructor.
    exists (h1 :: hs). split; [exact Hheights |].
    unfold close_stc in Hfinal. rewrite Hlabel in Hfinal.
    apply Z.ltb_lt in Hpos. rewrite Hpos in Hfinal.
    bind_inv Hfinal as height Hheight.
    simpl in Hheight. rewrite Hh in Hheight. simpl in Hheight.
    apply ret_inj in Hheight. subst height.
    cbn [stc_cells add_text_box].
    rewrite !stc_cells_app, Hcells, (stc_cells_stc_cell _ _ _ _ _ Hfinal).
    simpl app. rewrite (Heq h1).
    pose proof (heights_uniform _ _ _ Hheights Hall) as Hu.
    assert (h1 = h) by now inversion Hu. subst h1.
    apply (run_cells_uniform h (runs (labelled (row :: goal_rows) (h :: hs)))).
    apply runs_uniform, labelled_uniform, Hu.
Qed.

Lemma stc_cells_span_uniform_rows_witness :
  exists hs,
    heights_of (filter (fun r => r_GoalID r =? 1) (rows template)) hs /\
    stc_cells (fst template_goal_1)
    = span_cells (Inch 0.95 + Inch 0.3)
        (runs (labelled (filter (fun r => r_GoalID r =? 1) (rows template)) hs)).
Proof.
  apply (stc_cells_span_uniform_rows default_colors template_positions 6035040
           (rows template) (milestones template) (Inch 0.95)
           (Build_GoalRow 1 "Overarching goal 1") (fst template_goal_1)
           (snd template_goal_1) 548640).
  - vm_compute. reflexivity.
  - intros r Hr. simpl in Hr.
    repeat (destruct Hr as [<- | Hr]; [reflexivity |]). destruct Hr.
Defined.

(** ** A row in place

    The cursor is followed through the two loops: when row [k] of goal [j] is
    drawn it stands below the blocks of the goals before, the title of the
    goal, and the rows before.  The heights are those of the data. *)

Lemma heights_of_fun rs :
  forall hs hs', heights_of rs hs -> heights_of rs hs' -> hs = hs'.
Proof.
  induction rs as [| r rs IH]; intros hs hs' H H'; inversion H; inversion H'; subst.
  - reflexivity.
  - f_equal; [| now apply IH].
    match goal with
    | H1 : Inches _ = ret ?a, H2 : Inches _ = ret ?b |- ?a = ?b =>
        rewrite H1 in H2; now apply ret_inj in H2
    end.
Qed.

Lemma block_heights_fun data hss hss' :
  block_heights data hss -> block_heights data hss' -> hss = hss'.
Proof.
  unfold block_heights. revert hss hss'.
  induction (goals data) as [| g gs IH]; intros hss hss' H H';
    inversion H; inversion H'; subst.
  - reflexivity.
  - f_equal; [eapply heights_of_fun; eassumption | now apply IH].
Qed.

Lemma rows_loop_nth colors yp tgw mss rows :
  forall st shapes st' k row,
    rows_loop colors yp tgw mss rows st = ret (shapes, st') ->
    nth_error rows k = Some row ->
    exists hs h fta_top ms_shapes before after,
      heights_of rows hs /\
      nth_error hs k = Some h /\
      Inches (r_RowHeight row) = ret h /\
      label_top (current_top st + sum (firstn k hs)) h = ret fta_top /\
      milestones_loop colors yp (current_top st + sum (firstn k hs))
        (filter (fun ms => m_RowID ms =? r_RowID row) mss) = ret ms_shapes /\
      shapes
      = before
        ++ row_band colors yp tgw (current_top st + sum (firstn k hs)) h row fta_top
        ++ ms_shapes ++ after.
Proof.
  induction rows as [| row0 rows IH]; intros st shapes st' k row H Hk.
  - destruct k; discriminate Hk.
  - simpl in H. bind_inv H as [sh st1] Hrow. bind_inv H as [rest st2] Hrest.
    apply ret_inj in H. injection H as <- <-.
    destruct (draw_row_inv _ _ _ _ _ _ _ _ Hrow)
      as (h0 & stc_shapes & fta_top & ms_shapes & Hh0 & Hfta & Hms & -> & Htop).
    destruct k as [| k]; simpl in Hk.
    + injection Hk as ->.
      destruct (rows_loop_stacked _ _ _ _ _ _ _ _ Hrest) as (hs & Hhs & _ & _).
      exists (h0 :: hs), h0, fta_top, ms_shapes, stc_shapes, rest.
      cbn [firstn sum fold_right nth_error]. rewrite Z.add_0_r.
      repeat split; try assumption.
      * constructor; assumption.
      * now rewrite <- !app_assoc.
    + destruct (IH _ _ _ _ _ Hrest Hk)
        as (hs & h & fta_top' & ms_shapes' & before & after
            & Hhs & Hh & Hrh & Hfta' & Hms' & ->).
      exists (h0 :: hs), h, fta_top', ms_shapes',
        ((stc_shapes ++ row_band colors yp tgw (current_top st) h0 row0 fta_top
          ++ ms_shapes) ++ before), after.
      cbn [firstn sum fold_right nth_error].
      replace (current_top st + (h0 + fold_right Z.add 0 (firstn k hs)))
        with (current_top st1 + sum (firstn k hs)) by (unfold sum; lia).
      repeat split; try assumption.
      * constructor; assumption.
      * now rewrite <- !app_assoc.
Qed.

Lemma goals_loop_nth colors yp tgw rows mss goals :
  forall top shapes top' j goal k row,
    goals_loop colors yp tgw rows mss goals top = ret (shapes, top') ->
    nth_error goals j = Some goal ->
    nth_error (filter (fun r => r_GoalID r =? g_GoalID goal) rows) k = Some row ->
    exists hss hs h fta_top ms_shapes before after,
      Forall2
        (fun goal hs =>
           heights_of (filter (fun r => r_GoalID r =? g_GoalID goal) rows) hs)
        goals hss /\
      nth_error hss j = Some hs /\
      nth_error hs k = Some h /\
      Inches (r_RowHeight row) = ret h /\
      label_top
        (top + sum (map (fun hs => Inch 0.3 + sum hs) (firstn j hss)) + Inch 0.3
         + sum (firstn k hs)) h = ret fta_top /\
      milestones_loop colors yp
        (top + sum (map (fun hs => Inch 0.3 + sum hs) (firstn j hss)) + Inch 0.3
         + sum (firstn k hs))
        (filter (fun ms => m_RowID ms =? r_RowID row) mss) = ret ms_shapes /\
      shapes
      = before
        ++ row_band colors yp tgw
             (top + sum (map (fun hs => Inch 0.3 + sum hs) (firstn j hss))
              + Inch 0.3 + sum (firstn k hs)) h row fta_top
        ++ ms_shapes ++ after.
Proof.
  induction goals as [| goal0 goals IH]; intros top shapes top' j goal k row H Hj Hk.
  - destruct j; discriminate Hj.
  - simpl in H. bind_inv H as [sh top1] Hg. bind_inv H as [rest top2] Hrest.
    apply ret_inj in H. injection H as <- <-.
    destruct (draw_goal_inv _ _ _ _ _ _ _ _ _ Hg)
      as (sh_rows & st & final & Hrows & -> & ->).
    destruct j as [| j]; simpl in Hj.
    + injection Hj as ->.
      destruct (rows_loop_nth _ _ _ _ _ _ _ _ _ _ Hrows Hk)
        as (hs & h & fta_top & ms_shapes & before & after
            & Hhs & Hh & Hrh & Hfta & Hms & ->).
      destruct (goals_loop_bottom _ _ _ _ _ _ _ _ _ Hrest) as (hss & Hhss & _).
      exists (hs :: hss), hs, h, fta_top, ms_shapes,
        (TextBox (Inch 0) (PyInt top) SLIDE_WIDTH (Inch 0.25) (g_GoalName goal)
           12 true true None None CENTER :: before),
        (after ++ final ++ rest).
      cbn [firstn map sum fold_right nth_error current_top] in *.
      rewrite Z.add_0_r.
      repeat split; try assumption.
      * constructor; assumption.
      * unfold add_text_box. cbn [app]. now rewrite <- !app_assoc.
    + destruct (rows_loop_stacked _ _ _ _ _ _ _ _ Hrows) as (hs0 & Hhs0 & _ & Hend).
      cbn [current_top] in Hend.
      destruct (IH _ _ _ _ _ _ _ Hrest Hj Hk)
        as (hss & hs & h & fta_top & ms_shapes & before & after
            & Hhss & Hhs & Hh & Hrh & Hfta & Hms & ->).
      exists (hs0 :: hss), hs, h, fta_top, ms_shapes,
        ((add_text_box (Inch 0) (PyInt top) SLIDE_WIDTH (Inch 0.25)
            (g_GoalName goal0) 12 true None None CENTER true :: sh_rows ++ final)
         ++ before), after.
      cbn [firstn map nth_error].
      replace (top + sum ((Inch 0.3 + sum hs0)
                          :: map (fun hs1 => Inch 0.3 + sum hs1) (firstn j hss)))
        with (current_top st
              + sum (map (fun hs1 => Inch 0.3 + sum hs1) (firstn j hss)))
        by (rewrite Hend; unfold sum at 4; cbn [fold_right]; unfold sum; lia).
      repeat split; try assumption.
      * constructor; assumption.
      * now rewrite <- !app_assoc.
Qed.

Lemma drawn_row_at data shapes j goal k row :
  create_roadmap_from_data data = ret shapes ->
  nth_error (goals data) j = Some goal ->
  nth_error (filter (fun r => r_GoalID r =? g_GoalID goal) (rows data)) k
  = Some row ->
  exists colors ws hss hs h fta_top ms_shapes before after,
    parse_colors (settings data) = ret colors /\
    widths_of (timeline data) ws /\
    block_heights data hss /\
    nth_error hss j = Some hs /\
    nth_error hs k = Some h /\
    Inches (r_RowHeight row) = ret h /\
    label_top (row_top_of hss j hs k) h = ret fta_top /\
    milestones_loop colors
      (record_columns (left_margin + Inch 1.0) (timeline data) ws [])
      (row_top_of hss j hs k)
      (filter (fun ms => m_RowID ms =? r_RowID row) (milestones data))
    = ret ms_shapes /\
    shapes
    = before
      ++ row_band colors
           (record_columns (left_margin + Inch 1.0) (timeline data) ws [])
           (sum ws) (row_top_of hss j hs k) h row fta_top
      ++ ms_shapes ++ after.
Proof.
  intros Hrun Hj Hk.
  destruct (create_roadmap_shapes _ _ Hrun)
    as (colors & header & x_end & yp & blocks & top & captions & indicators
        & Hcolors & Htl & Hgoals & _ & ->).
  destruct (timeline_loop_inv _ _ _ _ _ _ _ Htl) as (ws & Hws & _ & -> & ->).
  replace (left_margin + Inch 1.0 + sum ws - left_margin - Inch 1.0)
    with (sum ws) in Hgoals by lia.
  destruct (goals_loop_nth _ _ _ _ _ _ _ _ _ _ _ _ _ Hgoals Hj Hk)
    as (hss & hs & h & fta_top & ms_shapes & before & after
        & Hhss & Hhs & Hh & Hrh & Hfta & Hms & ->).
  exists colors, ws, hss, hs, h, fta_top, ms_shapes,
    (slide_head colors (settings_get (settings data) "Title" "Roadmap")
     ++ header ++ before).
  eexists.
  unfold row_top_of, blocks_bottom.
  repeat split; try eassumption.
  rewrite <- !app_assoc. reflexivity.
Qed.



(** ** The grid of a row *)

Lemma dict_get_In_pair k v d : dict_get k d = Some v -> In (k, v) d.
Proof.
  induction d as [| [k0 v0] d IH]; simpl; [discriminate |].
  destruct (String.eqb k0 k) eqn:E.
  - apply String.eqb_eq in E. intros [= ->]. left. now subst.
  - intros H. right. now apply IH.
Qed.

(** X15.  In a layout that returns, the background of row [k] of goal [j]
    has its top at the cursor position the blocks and rows before it give
    and the height of the row; it starts at [left_margin], where the
    "Fiscal Years" cell starts, and is as wide as that cell and all the
    columns together, so it ends where the last column ends; its colour is
    the one its colour name maps to, and it has no outline. *)
Theorem row_background_spans_header data shapes j goal k row :
  create_roadmap_from_data data = ret shapes ->
  nth_error (goals data) j = Some goal ->
  nth_error (filter (fun r => r_GoalID r =? g_GoalID goal) (rows data)) k
  = Some row ->
  exists colors ws hss hs h,
    parse_colors (settings data) = ret colors /\
    widths_of (timeline data) ws /\
    block_heights data hss /\
    nth_error hss j = Some hs /\
    nth_error hs k = Some h /\
    Inches (r_RowHeight row) = ret h /\
    In (Rectangle left_margin (row_top_of hss j hs k) (Inch 1.0 + sum ws) h
          (Some (bg_color_map_get colors (lower (r_BackgroundColor row)))) None)
      shapes.
Proof.
  intros Hrun Hj Hk.
  destruct (drawn_row_at _ _ _ _ _ _ Hrun Hj Hk)
    as (colors & ws & hss & hs & h & fta_top & ms_shapes & before & after
        & Hcolors & Hws & Hhss & Hhs & Hh & Hrh & _ & _ & ->).
  exists colors, ws, hss, hs, h. repeat split; try assumption.
  apply in_or_app. right. apply in_or_app. left.
  unfold row_band. apply in_or_app. left.
  replace (Inch 1.0 + sum ws) with (sum ws + Inch 1.0) by lia.
  right. right. now left.
Qed.

Lemma row_background_spans_header_witness :
  exists colors ws hss hs h,
    parse_colors (settings template) = ret colors /\
    widths_of (timeline template) ws /\
    block_heights template hss /\
    nth_error hss 0 = Some hs /\
    nth_error hs 2 = Some h /\
    Inches 0.6 = ret h /\
    In (Rectangle left_margin (row_top_of hss 0 hs 2) (Inch 1.0 + sum ws) h
          (Some (bg_color_map_get colors (lower "Purple"))) None)
      template_shapes.
Proof.
  apply (row_background_spans_header template template_shapes
           0%nat (Build_GoalRow 1 "Overarching goal 1")
           2%nat (Build_RowsRow 3 "STC3" "FTA3" "Purple" 1 0.6)).
  - vm_compute. reflexivity.
  - reflexivity.
  - reflexivity.
Defined.

(** X16.  In a layout that returns, row [k] of goal [j] has a grid line, one
    point wide, from the top of the row over the height of the row, at the
    left edge of every column that is the last one recorded under its key. *)
Theorem grid_line_at_column data shapes j goal k row i e :
  create_roadmap_from_data data = ret shapes ->
  nth_error (goals data) j = Some goal ->
  nth_error (filter (fun r => r_GoalID r =? g_GoalID goal) (rows data)) k
  = Some row ->
  nth_error (timeline data) i = Some e ->
  ~ In (year_key e) (map year_key (skipn (S i) (timeline data))) ->
  exists ws hss hs h x,
    widths_of (timeline data) ws /\
    block_heights data hss /\
    nth_error hss j = Some hs /\
    nth_error hs k = Some h /\
    Inches (r_RowHeight row) = ret h /\
    nth_error (cursor_positions (left_margin + Inch 1.0) ws) i = Some x /\
    In (Rectangle x (row_top_of hss j hs k) (Pt 1) h (Some light_gray) None)
      shapes.
Proof.
  intros Hrun Hj Hk Hi Hlast.
  destruct (drawn_row_at _ _ _ _ _ _ Hrun Hj Hk)
    as (colors & ws & hss & hs & h & fta_top & ms_shapes & before & after
        & _ & Hws & Hhss & Hhs & Hh & Hrh & _ & _ & ->).
  destruct (cursor_positions_nth _ _ (left_margin + Inch 1.0) _ _ Hws Hi) as [x Hx].
  exists ws, hss, hs, h, x. repeat split; try assumption.
  apply in_or_app. right. apply in_or_app. left.
  unfold row_band. apply in_or_app. right.
  apply (in_map
           (fun entry : string * Z =>
              Rectangle (snd entry) (row_top_of hss j hs k) (Pt 1) h
                (Some light_gray) None)
           _ (year_key e, x)).
  apply dict_get_In_pair. rewrite <- Hx. now apply record_columns_last.
Qed.

Lemma grid_line_at_column_witness :
  exists ws hss hs h x,
    widths_of (timeline template) ws /\
    block_heights template hss /\
    nth_error hss 1 = Some hs /\
    nth_error hs 0 = Some h /\
    Inches 0.6 = ret h /\
    nth_error (cursor_positions (left_margin + Inch 1.0) ws) 6 = Some x /\
    In (Rectangle x (row_top_of hss 1 hs 0) (Pt 1) h (Some light_gray) None)
      template_shapes.
Proof.
  apply (grid_line_at_column template template_shapes
           1%nat (Build_GoalRow 2 "Overarching goal 2")
           0%nat (Build_RowsRow 5 "STC4" "FTA5" "Yellow" 2 0.6)
           6%nat (Build_TimelineRow "2029-2053" 1.8 "Yes")).
  - vm_compute. reflexivity.
  - reflexivity.
  - reflexivity.
  - reflexivity.
  - simpl. tauto.
Defined.
